(** * The response lifecycle store of vscode-httpyac

    A shallow embedding of [src/responseStore.ts] (class [ResponseStore]) and of
    the open-with response handler that is part of the same source, followed by
    the properties of the store that the specification states.

    Modelling choices, all read off the source:
    - the code is single threaded and every [await] is a sequence point, so an
      [async] method is a computation in a state-and-exception monad;
    - a [ResponseItem] is a mutable JavaScript object that the history array and
      the callers share; the store therefore keeps an object heap and the
      history array holds references into it;
    - the collaborators the store talks to (storage provider, editor commands,
      the file system, its own event emitter) are recorded call by call in a
      log next to the state they change. *)

From Stdlib Require Import ZArith.
From stdpp Require Import base list strings gmap functions.

Open Scope Z_scope.

(** ** JavaScript values used by the store *)

(** [vscode.Uri]. Two uris are the same object exactly when they are the same
    location, so a uri is modelled by its text. *)
Definition Uri := string.

(** A [Buffer]: a sequence of bytes. A [Buffer] object is always truthy, so a
    test [if (rawBody)] only asks whether the field is there. *)
Definition Buffer := list Byte.byte.

(** Truthiness of a number that is used as [x || d]: [0] is the falsy one. *)
Definition js_or_num (x d : Z) : Z := if x =? 0 then d else x.

(** [Array.prototype.findIndex]: the first index that satisfies [p], or [-1]. *)
Fixpoint findIndex_from {A} (p : A -> bool) (l : list A) (i : Z) : Z :=
  match l with
  | [] => -1
  | x :: l' => if p x then i else findIndex_from p l' (i + 1)
  end.

Definition Array_findIndex {A} (p : A -> bool) (l : list A) : Z :=
  findIndex_from p l 0.

(** [Array.prototype.indexOf] on an array of uris. *)
Definition Array_indexOf (u : Uri) (l : list Uri) : Z :=
  Array_findIndex (fun v => bool_decide (v = u)) l.

(** [array.splice(index, 1)] for [0 <= index]. *)
Definition Array_splice1 {A} (index : nat) (l : list A) : list A :=
  take index l ++ drop (S index) l.

(** ** Data model *)

Record HttpRequest := {
  req_url : string;
  req_body : option string;
}.

Record HttpResponse := {
  statusCode : Z;
  request : option HttpRequest;
  parsedBody : option string;
  body : option string;
  rawBody : option Buffer;
  prettyPrintBody : option string;
}.

(** The closure that [shrink] installs as [responseItem.loadResponseBody]. The
    source has one such closure; what it captures besides the item itself is
    the [responseUri] constant of the enclosing [shrink] call. *)
Inductive LoadResponseBody :=
  | LoadFrom (capturedUri : Uri).

(** Modelled from the spec: the class [ResponseItem] is declared outside the
    source at hand (in [extensionApi] and [view]). The fields are those that
    the store and the open-with handler read and write, with the meaning that
    section 3 of the specification gives them; [noResponseView] is the flag of
    section 4.2 that suppresses presentation entirely. *)
Record ResponseItem := {
  id : string;
  name : string;
  line : Z;
  extension : string;
  openWith : option string;
  noResponseView : bool;
  documentUri : option Uri;
  responseUri : option Uri;
  isCachedResponse : bool;
  loadResponseBody : option LoadResponseBody;
  response : HttpResponse;
}.

Record TextDocument := { uri : Uri }.

Record TextEditor := { document : TextDocument }.

Global Instance TextDocument_eq_dec : EqDecision TextDocument.
Proof. solve_decision. Defined.

(** What [getConfigSetting()] returns, as far as the store reads it.
    [maxHistoryItems] may be missing. *)
Record Config := {
  maxHistoryItems : option Z;
  responseViewPrettyPrint : bool;
}.

(** Calls that leave the store. *)
Inductive Call :=
  | CallWriteFile (content : Buffer) (fileName : string)
  | CallDeleteFile (location : Uri)
  | CallReadFile (location : Uri)
  | CmdFormatDocument (editor : TextEditor)
  | CmdOpenWith (location : Uri) (viewer : string)
  | CmdSetContext (key : string) (value : bool)
  | FireHistoryChanged.

(** The world outside the store: durable storage, the active editor and the
    log of calls made so far (oldest first). *)
Record Ext := {
  files : gmap string Buffer;
  activeTextEditor : option TextEditor;
  calls : list Call;
}.

(** An object reference. *)
Definition ref := nat.

(** The store object together with the heap of response items and the
    configuration in force. [next] is the next unused reference. *)
Record Store := {
  heap : ref -> ResponseItem;
  next : ref;
  responseCache : list ref;
  prettyPrintDocuments : list Uri;
  config : Config;
  ext : Ext;
}.

(** ** Field updates *)

Definition set_files (f : gmap string Buffer) (e : Ext) : Ext :=
  {| files := f; activeTextEditor := activeTextEditor e; calls := calls e |}.

Definition set_activeTextEditor (a : option TextEditor) (e : Ext) : Ext :=
  {| files := files e; activeTextEditor := a; calls := calls e |}.

Definition log (c : Call) (e : Ext) : Ext :=
  {| files := files e; activeTextEditor := activeTextEditor e;
     calls := calls e ++ [c] |}.

Definition set_heap (h : ref -> ResponseItem) (w : Store) : Store :=
  {| heap := h; next := next w; responseCache := responseCache w;
     prettyPrintDocuments := prettyPrintDocuments w; config := config w;
     ext := ext w |}.

Definition set_next (n : ref) (w : Store) : Store :=
  {| heap := heap w; next := n; responseCache := responseCache w;
     prettyPrintDocuments := prettyPrintDocuments w; config := config w;
     ext := ext w |}.

Definition set_responseCache (c : list ref) (w : Store) : Store :=
  {| heap := heap w; next := next w; responseCache := c;
     prettyPrintDocuments := prettyPrintDocuments w; config := config w;
     ext := ext w |}.

Definition set_prettyPrintDocuments (d : list Uri) (w : Store) : Store :=
  {| heap := heap w; next := next w; responseCache := responseCache w;
     prettyPrintDocuments := d; config := config w; ext := ext w |}.

Definition set_config (c : Config) (w : Store) : Store :=
  {| heap := heap w; next := next w; responseCache := responseCache w;
     prettyPrintDocuments := prettyPrintDocuments w; config := c;
     ext := ext w |}.

Definition set_ext (e : Ext) (w : Store) : Store :=
  {| heap := heap w; next := next w; responseCache := responseCache w;
     prettyPrintDocuments := prettyPrintDocuments w; config := config w;
     ext := e |}.

(** ** The monad of asynchronous methods *)

Inductive Error :=
  | RangeError
  | FileNotFound (location : Uri)
  | HandlerError (message : string).

Inductive Outcome (A : Type) :=
  | Return (a : A)
  | Throw (e : Error).
Arguments Return {A} a.
Arguments Throw {A} e.

(** A computation over a state [S]: it ends normally or by an exception, and
    in both cases the mutations made so far stay. *)
Definition ST (S A : Type) : Type := S -> Outcome A * S.

Definition ret {S A} (a : A) : ST S A := fun s => (Return a, s).

Definition throw {S A} (e : Error) : ST S A := fun s => (Throw e, s).

Definition bind {S A B} (m : ST S A) (k : A -> ST S B) : ST S B :=
  fun s =>
    match m s with
    | (Return a, s') => k a s'
    | (Throw e, s') => (Throw e, s')
    end.

Definition gets {S A} (f : S -> A) : ST S A := fun s => (Return (f s), s).

Definition modify {S} (f : S -> S) : ST S unit := fun s => (Return tt, f s).

Declare Scope st_scope.
Delimit Scope st_scope with st.
Notation "'let!' x := m 'in' k" := (bind m (fun x => k))
  (at level 10, x name, m at level 100, k at level 200) : st_scope.
Notation "m ;; k" := (bind m (fun _ => k))
  (at level 100, k at level 200, right associativity) : st_scope.
Open Scope st_scope.

(** Running a computation on a part of the state. *)
Definition onExt {A} (m : ST Ext A) : ST Store A :=
  fun w => let '(o, e') := m (ext w) in (o, set_ext e' w).

Definition onExtI {A} (m : ST Ext A) : ST (ResponseItem * Ext) A :=
  fun s => let '(o, e') := m (snd s) in (o, (fst s, e')).

(** Running a computation that works on one item object and the outside world
    on the object behind reference [r]. *)
Definition atItem {A} (r : ref) (m : ST (ResponseItem * Ext) A) : ST Store A :=
  fun w =>
    let '(o, (it', e')) := m (heap w r, ext w) in
    (o, set_ext e' (set_heap (<[r := it']> (heap w)) w)).

(** ** Collaborators *)

(** Modelled from the spec: the interface [StorageProvider] is declared outside
    the source at hand. Section 6: [writeFile(bytes, suggestedName)] gives a
    uri or [undefined]; [deleteFile(uri)] gives nothing and swallows failures.
    Both act on durable storage only. *)
Class StorageProvider := {
  sp_writeFile : Buffer -> string -> gmap string Buffer -> option Uri * gmap string Buffer;
  sp_deleteFile : Uri -> gmap string Buffer -> gmap string Buffer;
}.

(** What the platform decides: the boolean that the command
    [editor.action.formatDocument] resolves to, and [Buffer.toString('utf-8')]. *)
Class Platform := {
  formatDocumentResult : TextEditor -> Ext -> bool;
  Buffer_toString : Buffer -> string;
}.

(** A response handler gets the item object and may touch the outside world.
    The listener that the store subscribes to editor changes is a step of its
    own ([onDidChangeActiveTextEditor] below), not a part of a handler call. *)
Definition ResponseHandler : Type := ST (ResponseItem * Ext) bool.

(** ** The store's operations *)

Section ResponseStore.

Context {storageProvider : StorageProvider} {platform : Platform}.

(** [storageProvider.writeFile(content, fileName)] *)
Definition storageProvider_writeFile (content : Buffer) (fileName : string)
  : ST Ext (option Uri) :=
  fun e =>
    let '(location, f') := sp_writeFile content fileName (files e) in
    (Return location, log (CallWriteFile content fileName) (set_files f' e)).

(** [storageProvider.deleteFile(uri)] *)
Definition storageProvider_deleteFile (location : Uri) : ST Ext unit :=
  fun e =>
    (Return tt, log (CallDeleteFile location)
                    (set_files (sp_deleteFile location (files e)) e)).

(** [vscode.workspace.fs.readFile(uri)]: throws when there is no such file. *)
Definition workspace_fs_readFile (location : Uri) : ST Ext Buffer :=
  fun e =>
    match files e !! location with
    | Some content => (Return content, log (CallReadFile location) e)
    | None => (Throw (FileNotFound location), log (CallReadFile location) e)
    end.

(** [vscode.commands.executeCommand('editor.action.formatDocument', editor)] *)
Definition executeFormatDocument (editor : TextEditor) : ST Ext bool :=
  fun e => (Return (formatDocumentResult editor e), log (CmdFormatDocument editor) e).

Definition executeCommand (c : Call) : ST Ext unit :=
  modify (log c).

(** [this.refreshHistory.fire()] *)
Definition refreshHistory_fire : ST Store unit :=
  onExt (modify (log FireHistoryChanged)).

Definition getConfigSetting : ST Store Config := gets config.

(** [shrinkResponseItem(response)]: the five [delete]s. *)
Definition shrinkResponseItem (response : HttpResponse) : HttpResponse :=
  {| statusCode := statusCode response;
     request :=
       match request response with
       | Some rq => Some {| req_url := req_url rq; req_body := None |}
       | None => None
       end;
     parsedBody := None;
     body := None;
     rawBody := None;
     prettyPrintBody := None |}.

(** The assignments of the closure installed by [shrink], once the file has
    been read into [buffer]. *)
Definition markLoaded (buffer : Buffer) (responseItem : ResponseItem) : ResponseItem :=
  let response := response responseItem in
  {| id := id responseItem; name := name responseItem;
     line := line responseItem; extension := extension responseItem;
     openWith := openWith responseItem;
     noResponseView := noResponseView responseItem;
     documentUri := documentUri responseItem;
     responseUri := responseUri responseItem;
     isCachedResponse := false;
     loadResponseBody := None;
     response :=
       {| statusCode := statusCode response; request := request response;
          parsedBody := parsedBody response;
          body := Some (Buffer_toString buffer);
          rawBody := Some buffer;
          prettyPrintBody := prettyPrintBody response |} |}.

(** The closure installed by [shrink], run on the item that it captured. *)
Definition runLoadResponseBody (l : LoadResponseBody) : ST (ResponseItem * Ext) unit :=
  let 'LoadFrom capturedUri := l in
  let! buffer := onExtI (workspace_fs_readFile capturedUri) in
  modify (fun s : ResponseItem * Ext => (markLoaded buffer (fst s), snd s)).

(** [await responseItem.loadResponseBody?.()] *)
Definition loadResponseBody_call : ST (ResponseItem * Ext) unit :=
  let! responseItem := gets fst in
  match loadResponseBody responseItem with
  | Some l => runLoadResponseBody l
  | None => ret tt
  end.

(** [remove(responseItem)] *)
Definition remove (responseItem : ref) : ST Store bool :=
  let! item := gets (fun w => heap w responseItem) in
  let! index := gets (fun w =>
    Array_findIndex (fun obj => bool_decide (id (heap w obj) = id item))
                    (responseCache w)) in
  if 0 <=? index then
    match responseUri item with
    | Some location => onExt (storageProvider_deleteFile location)
    | None => ret tt
    end;;
    modify (fun w => set_responseCache (Array_splice1 (Z.to_nat index) (responseCache w)) w);;
    refreshHistory_fire;;
    let! len := gets (fun w => length (responseCache w)) in
    (if bool_decide (len = 0%nat)
     then onExt (executeCommand (CmdSetContext "httpyacHistoryEnabled" false))
     else ret tt);;
    ret true
  else ret false.

(** [clear()] *)
Fixpoint clear_loop (items : list ref) : ST Store unit :=
  match items with
  | [] => ret tt
  | responseItem :: rest =>
      let! item := gets (fun w => heap w responseItem) in
      match responseUri item with
      | Some location => onExt (storageProvider_deleteFile location)
      | None => ret tt
      end;;
      clear_loop rest
  end.

Definition clear : ST Store unit :=
  let! items := gets responseCache in
  clear_loop items;;
  modify (set_responseCache []);;
  refreshHistory_fire;;
  onExt (executeCommand (CmdSetContext "httpyacHistoryEnabled" false)).

(** The assignments of the success branch of [shrink]. *)
Definition markShrunk (location : Uri) (responseItem : ResponseItem) : ResponseItem :=
  {| id := id responseItem; name := name responseItem;
     line := line responseItem; extension := extension responseItem;
     openWith := openWith responseItem;
     noResponseView := noResponseView responseItem;
     documentUri := documentUri responseItem;
     responseUri := Some location;
     isCachedResponse := true;
     loadResponseBody := Some (LoadFrom location);
     response := shrinkResponseItem (response responseItem) |}.

(** [shrink(responseItem)] *)
Definition shrink (responseItem : ref) : ST Store unit :=
  let! item := gets (fun w => heap w responseItem) in
  match rawBody (response item) with
  | Some raw =>
      let! responseUri :=
        match responseUri item with
        | Some location => ret (Some location)
        | None =>
            onExt (storageProvider_writeFile raw
                     (String.append (id item) (String.append "." (extension item))))
        end in
      match responseUri with
      | Some location =>
          modify (fun w =>
            set_heap (<[responseItem := markShrunk location (heap w responseItem)]> (heap w)) w)
      | None => remove responseItem;; ret tt
      end
  | None => ret tt
  end.

(** [prettyPrint(editor)] *)
Definition prettyPrint (editor : TextEditor) : ST Store unit :=
  let! active := gets (fun w => activeTextEditor (ext w)) in
  let push :=
    modify (fun w => set_prettyPrintDocuments
                       (prettyPrintDocuments w ++ [uri (document editor)]) w) in
  if bool_decide (document <$> active = Some (document editor)) then
    let! formatted := onExt (executeFormatDocument editor) in
    if formatted then push else ret tt
  else push.

(** The [for ... of] loop of [show], over the handlers still to try. *)
Fixpoint show_loop (handlers : list ResponseHandler) (responseItem : ref)
  : ST Store unit :=
  match handlers with
  | [] => ret tt
  | responseHandler :: rest =>
      let! result := atItem responseItem responseHandler in
      if result then
        let! config := getConfigSetting in
        let! active := gets (fun w => activeTextEditor (ext w)) in
        if responseViewPrettyPrint config then
          match active with
          | Some editor => prettyPrint editor
          | None => ret tt
          end
        else ret tt
      else show_loop rest responseItem
  end.

Section Handlers.

(** [this.responseHandlers] *)
Variable responseHandlers : list ResponseHandler.

(** [show(responseItem)] *)
Definition show (responseItem : ref) : ST Store unit :=
  show_loop responseHandlers responseItem;;
  shrink responseItem.

(** [addToCache(responseItem)]. The assignment to [length] throws a
    [RangeError] for a negative number; it never asks for more than the
    current length, so it never extends the array. *)
Definition addToCache (responseItem : ref) : ST Store unit :=
  let! config := getConfigSetting in
  modify (fun w => set_responseCache (responseItem :: responseCache w) w);;
  let! len := gets (fun w => Z.of_nat (length (responseCache w))) in
  let newLength :=
    Z.min len (match maxHistoryItems config with
               | Some n => js_or_num n 50
               | None => 50
               end) in
  (if newLength <? 0 then throw RangeError
   else modify (fun w => set_responseCache (take (Z.to_nat newLength) (responseCache w)) w));;
  refreshHistory_fire;;
  let! len := gets (fun w => length (responseCache w)) in
  onExt (executeCommand (CmdSetContext "httpyacHistoryEnabled" (bool_decide (0 < len)%nat))).

(** [new view.ResponseItem(response, httpRegion)]: the constructor is outside
    the source at hand, so the object it builds is given; this allocates it. *)
Definition newResponseItem (constructed : ResponseItem) : ST Store ref :=
  fun w => (Return (next w),
            set_next (S (next w)) (set_heap (<[next w := constructed]> (heap w)) w)).

(** [add(response, httpRegion)] *)
Definition add (constructed : ResponseItem) : ST Store unit :=
  let! responseItem := newResponseItem constructed in
  show responseItem;;
  addToCache responseItem.

(** The listener subscribed to [vscode.window.onDidChangeActiveTextEditor]. *)
Definition onDidChangeActiveTextEditor (editor : option TextEditor) : ST Store unit :=
  let! docs := gets prettyPrintDocuments in
  let indexOfDocument :=
    match editor with
    | Some ed => js_or_num (Array_indexOf (uri (document ed)) docs) (-1)
    | None => -1
    end in
  match editor with
  | Some ed =>
      if 0 <=? indexOfDocument then
        prettyPrint ed;;
        modify (fun w => set_prettyPrintDocuments
                           (Array_splice1 (Z.to_nat indexOfDocument) (prettyPrintDocuments w)) w)
      else ret tt
  | None => ret tt
  end.

End Handlers.

(** ** The open-with response handler *)

(** [openWithResponseHandlerFactory(storageProvider)]. The test
    [if (responseItem.openWith)] fails for [undefined] and for the empty
    string. *)
Definition openWithResponseHandler : ResponseHandler :=
  let! responseItem := gets fst in
  match openWith responseItem with
  | Some viewer =>
      if bool_decide (viewer = "") then ret false
      else
        loadResponseBody_call;;
        let! responseItem := gets fst in
        match rawBody (response responseItem) with
        | Some raw =>
            let! location := onExtI (storageProvider_writeFile raw
                               (String.append (name responseItem)
                                  (String.append "." (extension responseItem)))) in
            match location with
            | Some u =>
                modify (fun s : ResponseItem * Ext =>
                  let it := fst s in
                  ({| id := id it; name := name it; line := line it;
                      extension := extension it; openWith := openWith it;
                      noResponseView := noResponseView it;
                      documentUri := Some u;
                      responseUri := responseUri it;
                      isCachedResponse := isCachedResponse it;
                      loadResponseBody := loadResponseBody it;
                      response := response it |}, snd s));;
                onExtI (executeCommand (CmdOpenWith u viewer));;
                ret true
            | None => ret false
            end
        | None => ret false
        end
  | None => ret false
  end.



End ResponseStore.

(** [responseItem.loadResponseBody?.()] called on the object behind [r]. *)
Definition invokeLoadResponseBody {storageProvider : StorageProvider}
    {platform : Platform} (r : ref) : ST Store unit :=
  atItem r loadResponseBody_call.

(** ** Vocabulary of the properties *)

(** The capacity that [addToCache] trims to: [config.maxHistoryItems || 50]. *)
Definition capacity (c : Config) : Z :=
  match maxHistoryItems c with
  | Some n => js_or_num n 50
  | None => 50
  end.

(** An item as the constructor leaves it: nothing persisted, nothing to
    rehydrate. *)
Definition fresh (it : ResponseItem) : Prop :=
  responseUri it = None /\ loadResponseBody it = None /\ isCachedResponse it = false.

(** The states of the object behind [r] that [shrink] and [loadResponseBody]
    lead to from the store [w0], whatever else happens to the rest of the
    store and to the outside world in between. *)
Inductive lifecycle {storageProvider : StorageProvider} {platform : Platform}
    (r : ref) (w0 : Store) : Store -> Prop :=
  | lifecycle_start : lifecycle r w0 w0
  | lifecycle_shrink w :
      lifecycle r w0 w -> lifecycle r w0 (snd (shrink r w))
  | lifecycle_load w :
      lifecycle r w0 w -> lifecycle r w0 (snd (invokeLoadResponseBody r w))
  | lifecycle_frame w w' :
      lifecycle r w0 w -> heap w' r = heap w r -> lifecycle r w0 w'.

(** A run of [add] calls, one per constructed item, each of which returns
    normally and leaves no resident raw body on the item it added (the body
    was persisted, or there was none). *)
Fixpoint adds {storageProvider : StorageProvider} {platform : Platform}
    (handlers : list ResponseHandler)
    (items : list ResponseItem) (w w' : Store) : Prop :=
  match items with
  | [] => w' = w
  | constructed :: rest =>
      exists w1,
        add handlers constructed w = (Return tt, w1) /\
        rawBody (response (heap w1 (next w))) = None /\
        adds handlers rest w1 w'
  end.

(** The state in which a handler call on the object behind [r] leaves the
    store. *)
Definition afterHandler (r : ref) (h : ResponseHandler) (w : Store) : Outcome bool * Store :=
  atItem r h w.

(** What holds of an item all along its life: with a [loadResponseBody]
    installed the item is marked cached, its [responseUri] is the location the
    closure reads and no raw body is resident; without one the item is not
    marked cached. *)
Definition coherent (it : ResponseItem) : Prop :=
  match loadResponseBody it with
  | Some (LoadFrom location) =>
      isCachedResponse it = true /\ responseUri it = Some location /\
      rawBody (response it) = None
  | None => isCachedResponse it = false
  end.

(** The handlers [hs], called in order on the object behind [r] from the
    store [w], all report "not handled" and leave the store [w1]. *)
Fixpoint declines (r : ref) (hs : list ResponseHandler) (w w1 : Store) : Prop :=
  match hs with
  | [] => w1 = w
  | h :: rest =>
      exists w', atItem r h w = (Return false, w') /\ declines r rest w' w1
  end.



(** ** Concrete collaborators and inputs *)

(** A storage provider that stores every blob under its suggested name. *)
Definition folderStorage : StorageProvider :=
  {| sp_writeFile := fun content fileName f => (Some fileName, <[fileName := content]> f);
     sp_deleteFile := fun location f => delete location f |}.

(** A storage provider whose writes are always declined. *)
Definition decliningStorage : StorageProvider :=
  {| sp_writeFile := fun _ _ f => (None, f);
     sp_deleteFile := fun location f => delete location f |}.

(** A platform whose format command always resolves to [formatted]. *)
Definition fixedPlatform (formatted : bool) : Platform :=
  {| formatDocumentResult := fun _ _ => formatted;
     Buffer_toString := fun b => String.string_of_list_ascii (map Ascii.ascii_of_byte b) |}.

Definition formatFails : Platform := fixedPlatform false.
Definition formatSucceeds : Platform := fixedPlatform true.

Definition sampleBody : Buffer := [Byte.x68; Byte.x69].

Definition sampleResponse (raw : option Buffer) : HttpResponse :=
  {| statusCode := 200;
     request := Some {| req_url := "http://localhost/"; req_body := Some "q" |};
     parsedBody := Some "hi"; body := Some "hi"; rawBody := raw;
     prettyPrintBody := None |}.

Definition sampleItem (i : string) (raw : option Buffer) : ResponseItem :=
  {| id := i; name := "req"; line := 1; extension := "txt"; openWith := None;
     noResponseView := false; documentUri := None; responseUri := None;
     isCachedResponse := false; loadResponseBody := None;
     response := sampleResponse raw |}.

Definition flaggedItem : ResponseItem :=
  {| id := "f"; name := "req"; line := 1; extension := "txt";
     openWith := Some "hexEditor"; noResponseView := true; documentUri := None;
     responseUri := None; isCachedResponse := false; loadResponseBody := None;
     response := sampleResponse (Some sampleBody) |}.

Definition sampleEditor : TextEditor := {| document := {| uri := "response.txt" |} |}.

(** The store right after its constructor ran. *)
Definition newStore (c : Config) (active : option TextEditor) : Store :=
  {| heap := fun _ => sampleItem "" None; next := 0%nat; responseCache := [];
     prettyPrintDocuments := []; config := c;
     ext := {| files := ∅; activeTextEditor := active; calls := [] |} |}.

Definition configOf (n : option Z) (pretty : bool) : Config :=
  {| maxHistoryItems := n; responseViewPrettyPrint := pretty |}.

(** A handler that accepts everything and one that declines everything. *)
Definition acceptingHandler : ResponseHandler := ret true.
Definition decliningHandler : ResponseHandler := ret false.

(** A store that holds the object [it] behind reference 0 and has an empty
    history. *)
Definition holding (it : ResponseItem) (c : Config) (active : option TextEditor) : Store :=
  snd (newResponseItem it (newStore c active)).

Definition itemA : ResponseItem := sampleItem "a" (Some sampleBody).
Definition itemB : ResponseItem := sampleItem "b" (Some sampleBody).

(** ** The lookups of the store *)

(** The part of [httpyac.HttpRegion] that the store reads:
    [httpRegion.symbol.name] and [httpRegion.symbol.startLine]. *)
Record HttpSymbol := {
  symbol_name : string;
  symbol_startLine : Z;
}.

Record HttpRegion := { symbol : HttpSymbol }.

(** [findResponseByDocument(document)]: [Array.prototype.find] gives the first
    entry that satisfies the test, or [undefined]. An item without a
    [documentUri] never satisfies it. *)
Definition findResponseByDocument (document : TextDocument) : ST Store (option ref) :=
  gets (fun w =>
    let docUri := uri document in
    List.find (fun obj => bool_decide (documentUri (heap w obj) = Some docUri))
              (responseCache w)).

(** [findResponseByHttpRegion(httpRegion)] *)
Definition findResponseByHttpRegion (httpRegion : HttpRegion) : ST Store (option ref) :=
  gets (fun w =>
    List.find (fun obj =>
                 bool_decide (name (heap w obj) = symbol_name (symbol httpRegion)) &&
                 bool_decide (line (heap w obj) = symbol_startLine (symbol httpRegion)))
              (responseCache w)).

(** ** More vocabulary *)

(** The value that the calls [setContext key value] made so far leave in the
    context key [key]; a key never set counts as false. *)
Definition contextValue (key : string) (cs : list Call) : bool :=
  fold_left (fun value c =>
               match c with
               | CmdSetContext k v => if bool_decide (k = key) then v else value
               | _ => value
               end) cs false.

Definition historyEnabled (e : Ext) : bool :=
  contextValue "httpyacHistoryEnabled" (calls e).

(** The context key says whether the history has an entry. *)
Definition flagConsistent (w : Store) : Prop :=
  historyEnabled (ext w) = bool_decide (0 < length (responseCache w))%nat.

(** No object is in the history twice and every entry is an allocated
    object. *)
Definition historyWellFormed (w : Store) : Prop :=
  NoDup (responseCache w) /\ forall r, r ∈ responseCache w -> (r < next w)%nat.

(** The ids of the history entries, in history order. *)
Definition historyIds (w : Store) : list string :=
  (fun obj => id (heap w obj)) <$> responseCache w.

(** The locations of the durable copies of the history entries, in history
    order. *)
Definition historyUris (w : Store) : list Uri :=
  omap (fun obj => responseUri (heap w obj)) (responseCache w).

(** The calls of the storage provider's [writeFile] in a log. *)
Definition isWriteFile (c : Call) : bool :=
  match c with CallWriteFile _ _ => true | _ => false end.

(** An item with an external viewer preference, as [shrink] leaves it after
    persisting its body. *)
Definition cachedViewerItem : ResponseItem :=
  {| id := "f"; name := "req"; line := 1; extension := "txt";
     openWith := Some "hexEditor"; noResponseView := false; documentUri := None;
     responseUri := Some "f.txt"; isCachedResponse := true;
     loadResponseBody := Some (LoadFrom "f.txt");
     response :=
       {| statusCode := 200;
          request := Some {| req_url := "http://localhost/"; req_body := None |};
          parsedBody := None; body := None; rawBody := None;
          prettyPrintBody := None |} |}.

(** A store that holds [cachedViewerItem] behind reference 0, with its blob
    in durable storage. *)
Definition holdingCached : Store :=
  set_ext {| files := {[ "f.txt" := sampleBody ]}; activeTextEditor := None; calls := [] |}
    (holding cachedViewerItem (configOf None false) None).

(** A handler that throws. *)
Definition throwingHandler : ResponseHandler := throw (HandlerError "boom").

(** An item with an external viewer preference and nothing to show. *)
Definition viewerItemWithoutBody : ResponseItem :=
  {| id := "n"; name := "req"; line := 1; extension := "txt";
     openWith := Some "hexEditor"; noResponseView := false; documentUri := None;
     responseUri := None; isCachedResponse := false; loadResponseBody := None;
     response := sampleResponse None |}.

(** * Properties *)

(** ** Arrays *)

Lemma findIndex_from_spec {A} (p : A -> bool) (l : list A) (i : Z) :
  0 <= i ->
  (findIndex_from p l i = -1 /\ Forall (fun x => p x = false) l) \/
  (exists k x, findIndex_from p l i = i + Z.of_nat k /\
               l !! k = Some x /\ p x = true).
Proof.
  revert i. induction l as [|a l IH]; intros i Hi; simpl.
  - left. split; [reflexivity | constructor].
  - destruct (p a) eqn:Hp.
    + right. exists 0%nat, a. split; [lia | done].
    + destruct (IH (i + 1)) as [[Hn Hall] | (k & x & Hk & Hx & Hpx)]; [lia | |].
      * left. split; [done | by constructor].
      * right. exists (S k), x. split; [lia | done].
Qed.

Lemma Array_findIndex_absent {A} (p : A -> bool) (l : list A) :
  (forall x, x ∈ l -> p x = false) -> Array_findIndex p l = -1.
Proof.
  intros Hall. unfold Array_findIndex.
  destruct (findIndex_from_spec p l 0) as [[Hn _] | (k & x & _ & Hx & Hpx)];
    [lia | done |].
  rewrite Hall in Hpx; [done |]. apply list_elem_of_lookup. eauto.
Qed.

Lemma Array_findIndex_present {A} (p : A -> bool) (l : list A) x :
  x ∈ l -> p x = true ->
  exists k : nat, Array_findIndex p l = Z.of_nat k /\ (k < length l)%nat.
Proof.
  intros Hin Hpx. unfold Array_findIndex.
  destruct (findIndex_from_spec p l 0) as [[_ Hall] | (k & y & Hk & Hy & _)];
    [lia | |].
  - rewrite list.Forall_forall in Hall. rewrite (Hall x Hin) in Hpx. done.
  - exists k. split; [lia |]. by apply lookup_lt_Some in Hy.
Qed.

Lemma Array_splice1_length {A} (k : nat) (l : list A) :
  (k < length l)%nat -> S (length (Array_splice1 k l)) = length l.
Proof.
  intros Hk. unfold Array_splice1.
  rewrite length_app, length_take, length_drop. lia.
Qed.

Section StoreFacts.

Context {storageProvider : StorageProvider} {platform : Platform}.

(** ** [remove] *)

Lemma remove_heap r w : heap (snd (remove r w)) = heap w.
Proof.
  unfold remove, bind, gets, modify, ret, refreshHistory_fire, onExt. simpl.
  destruct (0 <=? _); [| reflexivity].
  destruct (responseUri (heap w r)); simpl; case_bool_decide; reflexivity.
Qed.

Lemma remove_returns r w : exists b, fst (remove r w) = Return b.
Proof.
  unfold remove, bind, gets, modify, ret, refreshHistory_fire, onExt. simpl.
  destruct (0 <=? _); [| by eexists].
  destruct (responseUri (heap w r)); simpl; case_bool_decide; by eexists.
Qed.

(** C8. [remove] on an id that no history entry carries returns false and
    leaves the whole store, the outside world included, as it was. On an id
    that some entry carries it returns true, the history gets shorter by
    exactly one entry, and when the item has a [responseUri] the storage
    provider is asked to delete that location and durable storage is what
    that deletion leaves; without a [responseUri] durable storage is
    untouched. *)
Theorem remove_by_id (r : ref) (w : Store) :
  ((forall obj, obj ∈ responseCache w -> id (heap w obj) <> id (heap w r)) ->
   remove r w = (Return false, w)) /\
  ((exists obj, obj ∈ responseCache w /\ id (heap w obj) = id (heap w r)) ->
   exists w',
     remove r w = (Return true, w') /\
     S (length (responseCache w')) = length (responseCache w) /\
     heap w' = heap w /\
     match responseUri (heap w r) with
     | Some location =>
         files (ext w') = sp_deleteFile location (files (ext w)) /\
         CallDeleteFile location ∈ calls (ext w')
     | None => files (ext w') = files (ext w)
     end).
Proof.
  split.
  - intros Habsent. unfold remove, bind, gets. simpl.
    rewrite Array_findIndex_absent; [reflexivity |].
    intros obj Hobj. apply bool_decide_eq_false. by apply Habsent.
  - intros (obj & Hobj & Hid).
    destruct (Array_findIndex_present
                (fun o => bool_decide (id (heap w o) = id (heap w r)))
                (responseCache w) obj Hobj) as (k & Hk & Hlt).
    { by apply bool_decide_eq_true. }
    unfold remove, bind, gets, modify, ret, refreshHistory_fire, onExt,
      executeCommand, storageProvider_deleteFile. simpl.
    rewrite Hk. replace (0 <=? Z.of_nat k) with true by (symmetry; apply Z.leb_le; lia).
    rewrite Nat2Z.id.
    destruct (responseUri (heap w r)) as [location|]; simpl;
      case_bool_decide; simpl; eexists; (split; [reflexivity |]); simpl;
      rewrite ?Array_splice1_length by done;
      repeat split; try reflexivity; set_solver.
Qed.

(** ** [shrink] and [loadResponseBody] *)

Lemma shrink_no_body r w :
  rawBody (response (heap w r)) = None -> shrink r w = (Return tt, w).
Proof. intros Hraw. unfold shrink, bind, gets. simpl. by rewrite Hraw. Qed.

(** What a call of [shrink] on an item with a resident raw body does to the
    item: either a location was there or was obtained, and the item is marked
    shrunk with it, or the write was declined and no item object changed. *)
Lemma shrink_outcome r w raw :
  rawBody (response (heap w r)) = Some raw ->
  (exists location,
     fst (shrink r w) = Return tt /\
     heap (snd (shrink r w)) r = markShrunk location (heap w r)) \/
  (responseUri (heap w r) = None /\ heap (snd (shrink r w)) = heap w).
Proof.
  intros Hraw. unfold shrink, bind, gets, modify, ret, onExt,
    storageProvider_writeFile. simpl. rewrite Hraw.
  destruct (responseUri (heap w r)) as [location|] eqn:Huri; simpl.
  - left. exists location. by rewrite fn_lookup_insert.
  - destruct (sp_writeFile _ _ _) as [[location|] f'] eqn:Hwrite; simpl.
    + left. exists location. by rewrite fn_lookup_insert.
    + right. split; [reflexivity |].
      match goal with
      | |- context [remove r ?w1] =>
          pose proof (remove_heap r w1) as Hheap;
          destruct (remove r w1) as [[b|e] w2]
      end; simpl in *; exact Hheap.
Qed.

(** C6. When [shrink] ran on an item that held a raw body and left it with a
    [responseUri] (the body was persisted), a second [shrink] on the item
    returns normally and leaves the store exactly as the first call left it:
    the log of collaborator calls has no further write, and no field of any
    item changed. *)
Theorem shrink_twice_is_noop (r : ref) (w : Store) (raw : Buffer) :
  rawBody (response (heap w r)) = Some raw ->
  is_Some (responseUri (heap (snd (shrink r w)) r)) ->
  shrink r (snd (shrink r w)) = (Return tt, snd (shrink r w)).
Proof.
  intros Hraw Hpersisted. apply shrink_no_body.
  destruct (shrink_outcome r w raw Hraw) as [(location & _ & Hitem) | [Hnone Hheap]].
  - by rewrite Hitem.
  - rewrite Hheap, Hnone in Hpersisted. by destruct Hpersisted.
Qed.

(** C7. When [shrink] ran on an item that held the raw body [raw] and left it
    with the [responseUri] [location], and reading [location] gives back [raw]
    (the storage provider round-trips bytes), then invoking
    [loadResponseBody] returns normally, the raw body is [raw] again, the text
    body is its decoding, [isCachedResponse] is false and the item has no
    [loadResponseBody] any more. *)
Theorem load_after_shrink_roundtrip (r : ref) (w : Store) (raw : Buffer) (location : Uri) :
  rawBody (response (heap w r)) = Some raw ->
  responseUri (heap (snd (shrink r w)) r) = Some location ->
  files (ext (snd (shrink r w))) !! location = Some raw ->
  exists w2,
    invokeLoadResponseBody r (snd (shrink r w)) = (Return tt, w2) /\
    rawBody (response (heap w2 r)) = Some raw /\
    body (response (heap w2 r)) = Some (Buffer_toString raw) /\
    isCachedResponse (heap w2 r) = false /\
    loadResponseBody (heap w2 r) = None.
Proof.
  intros Hraw Huri Hfile.
  destruct (shrink_outcome r w raw Hraw) as [(u & _ & Hitem) | [Hnone Hheap]].
  - rewrite Hitem in Huri. simpl in Huri. injection Huri as ->.
    unfold invokeLoadResponseBody, atItem, loadResponseBody_call, bind, gets.
    simpl. rewrite Hitem. simpl.
    unfold bind, onExtI, workspace_fs_readFile, modify. simpl.
    rewrite Hfile. simpl. eexists. split; [reflexivity |]. simpl.
    by rewrite fn_lookup_insert.
  - rewrite Hheap, Hnone in Huri. discriminate.
Qed.

(** ** What the operations leave alone *)

Lemma atItem_frame {A} r (m : ST (ResponseItem * Ext) A) w :
  next (snd (atItem r m w)) = next w /\
  responseCache (snd (atItem r m w)) = responseCache w /\
  config (snd (atItem r m w)) = config w /\
  prettyPrintDocuments (snd (atItem r m w)) = prettyPrintDocuments w.
Proof.
  unfold atItem. destruct (m (heap w r, ext w)) as [o [it' e']]. by simpl.
Qed.

Lemma prettyPrint_frame editor w :
  next (snd (prettyPrint editor w)) = next w /\
  responseCache (snd (prettyPrint editor w)) = responseCache w /\
  config (snd (prettyPrint editor w)) = config w /\
  heap (snd (prettyPrint editor w)) = heap w.
Proof.
  unfold prettyPrint, bind, gets, modify, ret, onExt, executeFormatDocument.
  simpl. case_bool_decide; simpl; [| done].
  by destruct (formatDocumentResult _ _).
Qed.

Lemma show_loop_frame (handlers : list ResponseHandler) r w o w' :
  show_loop handlers r w = (o, w') ->
  next w' = next w /\ responseCache w' = responseCache w /\ config w' = config w.
Proof.
  revert w. induction handlers as [|h rest IH]; intros w; simpl.
  - unfold ret. by intros [= _ <-].
  - unfold bind at 1.
    destruct (atItem_frame r h w) as (Hn & Hc & Hg & _).
    destruct (atItem r h w) as [[[|]|e] w1]; simpl in *.
    + unfold bind, getConfigSetting, gets, ret. simpl.
      destruct (responseViewPrettyPrint (config w1)); [| by intros [= _ <-]].
      destruct (activeTextEditor (ext w1)) as [editor|]; [| by intros [= _ <-]].
      destruct (prettyPrint_frame editor w1) as (Hn' & Hc' & Hg' & _).
      intros Hrun. rewrite Hrun in *. simpl in *. by rewrite Hn', Hc', Hg'.
    + intros Hrun. destruct (IH _ Hrun) as (Hn' & Hc' & Hg').
      by rewrite Hn', Hc', Hg'.
    + by intros [= _ <-].
Qed.

Lemma remove_frame r w :
  next (snd (remove r w)) = next w /\ config (snd (remove r w)) = config w.
Proof.
  unfold remove, bind, gets, modify, ret, refreshHistory_fire, onExt. simpl.
  destruct (0 <=? _); [| done].
  destruct (responseUri (heap w r)); simpl; by case_bool_decide.
Qed.

Lemma shrink_frame r w :
  next (snd (shrink r w)) = next w /\ config (snd (shrink r w)) = config w.
Proof.
  unfold shrink, bind, gets, modify, ret, onExt, storageProvider_writeFile.
  simpl. destruct (rawBody (response (heap w r))) as [raw|]; [| done].
  destruct (responseUri (heap w r)) as [location|]; simpl; [done |].
  destruct (sp_writeFile _ _ _) as [[location|] f']; simpl; [done |].
  match goal with
  | |- context [remove r ?w1] =>
      pose proof (remove_frame r w1) as Hframe;
      destruct (remove r w1) as [[b|e] w2]
  end; simpl in *; exact Hframe.
Qed.

(** A [shrink] that leaves no resident raw body on the item did not take the
    eviction branch, so the history array is as before. *)
Lemma shrink_cache r w :
  rawBody (response (heap (snd (shrink r w)) r)) = None ->
  responseCache (snd (shrink r w)) = responseCache w.
Proof.
  intros Hgone. unfold shrink, bind, gets, modify, ret, onExt,
    storageProvider_writeFile in *. simpl in *.
  destruct (rawBody (response (heap w r))) as [raw|] eqn:Hraw; [| done].
  destruct (responseUri (heap w r)) as [location|]; simpl in *; [done |].
  destruct (sp_writeFile _ _ _) as [[location|] f']; simpl in *; [done |].
  exfalso.
  match type of Hgone with
  | context [remove r ?w1] =>
      pose proof (remove_heap r w1) as Hheap;
      destruct (remove r w1) as [[b|e] w2]
  end; simpl in *; rewrite Hheap in Hgone; simpl in Hgone; congruence.
Qed.

(** ** [addToCache] and [add] *)

Lemma capacity_nonzero c : capacity c <> 0.
Proof.
  unfold capacity, js_or_num. destruct (maxHistoryItems c) as [n|]; [| lia].
  destruct (n =? 0) eqn:Hn; lia.
Qed.

Lemma addToCache_returns r w w' :
  addToCache r w = (Return tt, w') ->
  0 < capacity (config w) /\
  responseCache w' = take (Z.to_nat (capacity (config w))) (r :: responseCache w) /\
  heap w' = heap w /\ next w' = next w /\ config w' = config w /\
  files (ext w') = files (ext w).
Proof.
  unfold addToCache, bind, getConfigSetting, gets, modify, ret, throw,
    refreshHistory_fire, onExt, executeCommand. simpl. fold (capacity (config w)).
  pose proof (capacity_nonzero (config w)) as Hnz.
  destruct (Z.min _ _ <? 0) eqn:Hneg; simpl; [discriminate |].
  apply Z.ltb_ge in Hneg. intros [= <-]. simpl.
  split; [lia |]. split; [| done].
  destruct (Z.le_ge_cases (capacity (config w)) (Z.pos (Pos.of_succ_nat (length (responseCache w))))) as [Hle | Hge].
  - by rewrite Z.min_r.
  - rewrite Z.min_l by done. rewrite !take_ge; [done | simpl; lia | simpl; lia].
Qed.

Lemma addToCache_total r w :
  0 <= capacity (config w) -> exists w', addToCache r w = (Return tt, w').
Proof.
  intros Hcap.
  unfold addToCache, bind, getConfigSetting, gets, modify, ret, throw,
    refreshHistory_fire, onExt, executeCommand. simpl. fold (capacity (config w)).
  destruct (Z.min _ _ <? 0) eqn:Hneg; simpl; [| by eexists].
  apply Z.ltb_lt in Hneg. lia.
Qed.

(** [add] is: allocate, [show], [addToCache]. *)
Lemma add_returns handlers constructed w w' :
  add handlers constructed w = (Return tt, w') ->
  exists w1,
    show handlers (next w) (snd (newResponseItem constructed w)) = (Return tt, w1) /\
    addToCache (next w) w1 = (Return tt, w').
Proof.
  unfold add, bind at 1 2. simpl.
  destruct (show handlers (next w) _) as [[[]|e] w1]; [| discriminate].
  intros Hadd. by exists w1.
Qed.

Lemma add_total handlers constructed w w1 :
  show handlers (next w) (snd (newResponseItem constructed w)) = (Return tt, w1) ->
  add handlers constructed w = addToCache (next w) w1.
Proof.
  intros Hshow. unfold add, bind at 1 2. simpl in *. by rewrite Hshow.
Qed.

Lemma show_frame handlers r w o w' :
  show handlers r w = (o, w') ->
  next w' = next w /\ config w' = config w /\
  (rawBody (response (heap w' r)) = None -> responseCache w' = responseCache w).
Proof.
  unfold show, bind.
  destruct (show_loop handlers r w) as [[[]|e] w1] eqn:Hloop;
    destruct (show_loop_frame _ _ _ _ _ Hloop) as (Hn & Hc & Hg).
  - intros Hshrink.
    pose proof (shrink_frame r w1) as [Hn' Hg'].
    pose proof (shrink_cache r w1) as Hc'.
    rewrite Hshrink in *. simpl in *.
    split; [congruence |]. split; [congruence |].
    intros Hgone. rewrite Hc'; done.
  - by intros [= _ <-].
Qed.

(** One [add] that returns normally, seen from the history: the capacity is
    positive, the new object is put in front of the history that [show] left
    and the result is cut to the capacity. *)
Lemma add_history handlers constructed w w' :
  add handlers constructed w = (Return tt, w') ->
  0 < capacity (config w) /\ next w' = S (next w) /\ config w' = config w /\
  exists shown,
    responseCache w' = take (Z.to_nat (capacity (config w))) (next w :: shown) /\
    (rawBody (response (heap w' (next w))) = None -> shown = responseCache w).
Proof.
  intros Hadd. destruct (add_returns _ _ _ _ Hadd) as (w1 & Hshow & Hcache).
  destruct (show_frame _ _ _ _ _ Hshow) as (Hn & Hg & Hc). simpl in *.
  destruct (addToCache_returns _ _ _ Hcache) as (Hpos & Hc' & Hh' & Hn' & Hg' & _).
  rewrite Hg in *. repeat split; [done | congruence | congruence |].
  exists (responseCache w1). split; [done |].
  intros Hgone. apply Hc. by rewrite <- Hh'.
Qed.

(** C4. Whenever [add] returns normally, the history is no longer than the
    capacity in force, which is [maxHistoryItems] when that is a number other
    than zero and 50 when it is zero or missing; and when the persistence of
    the new item did not fail, that is when [shrink] left no resident raw
    body on it, the object just added is at index 0 of the history. *)
Theorem add_bounds_history (handlers : list ResponseHandler)
    (constructed : ResponseItem) (w w' : Store) :
  add handlers constructed w = (Return tt, w') ->
  Z.of_nat (length (responseCache w')) <= capacity (config w) /\
  (rawBody (response (heap w' (next w))) = None ->
   responseCache w' !! 0%nat = Some (next w)).
Proof.
  intros Hadd.
  destruct (add_history _ _ _ _ Hadd) as (Hpos & _ & _ & shown & Hc & _).
  rewrite Hc. split.
  - rewrite length_take. lia.
  - intros _.
    destruct (Z.to_nat (capacity (config w))) as [|n] eqn:Hn; [lia | done].
Qed.

(** C10. With [maxHistoryItems] zero or missing, an [add] whose [show] step
    returns normally returns normally itself, the history is the new object
    in front of the history that [show] left, cut to 50 entries, and so the
    new object is in the history. *)
Theorem falsy_maxHistoryItems_trims_to_50 (handlers : list ResponseHandler)
    (constructed : ResponseItem) (w w1 : Store) :
  maxHistoryItems (config w) = Some 0 \/ maxHistoryItems (config w) = None ->
  show handlers (next w) (snd (newResponseItem constructed w)) = (Return tt, w1) ->
  exists w',
    add handlers constructed w = (Return tt, w') /\
    responseCache w' = take 50%nat (next w :: responseCache w1) /\
    next w ∈ responseCache w'.
Proof.
  intros Hfalsy Hshow.
  destruct (show_frame _ _ _ _ _ Hshow) as (_ & Hg & _). simpl in Hg.
  assert (capacity (config w1) = 50) as Hcap.
  { rewrite Hg. unfold capacity. destruct Hfalsy as [Hmax | Hmax]; by rewrite Hmax. }
  destruct (addToCache_total (next w) w1) as [w' Hcache]; [lia |].
  exists w'. rewrite (add_total _ _ _ _ Hshow). split; [done |].
  destruct (addToCache_returns _ _ _ Hcache) as (_ & Hc & _).
  rewrite Hcap in Hc. rewrite Hc. split; [done |]. simpl. constructor.
Qed.

Lemma take_app_take {A} (n : nat) (l k : list A) :
  take n (l ++ take n k) = take n (l ++ k).
Proof. rewrite !take_app, take_take. do 2 f_equal. lia. Qed.

(** The history after a run of [adds]: the new objects, newest first, in
    front of the old history, cut to the capacity. *)
Lemma adds_history handlers (N : nat) items :
  forall w w',
    capacity (config w) = Z.of_nat N ->
    (length (responseCache w) <= N)%nat ->
    adds handlers items w w' ->
    responseCache w' =
      take N (reverse (seq (next w) (length items)) ++ responseCache w).
Proof.
  induction items as [|constructed rest IH]; intros w w' Hcap Hlen; simpl.
  - intros ->. by rewrite take_ge.
  - intros (w1 & Hadd & Hgone & Hrest).
    destruct (add_history _ _ _ _ Hadd) as (_ & Hn & Hg & shown & Hc & Hshown).
    rewrite (Hshown Hgone), Hcap, Nat2Z.id in Hc.
    rewrite (IH w1 w'); [| by rewrite Hg | rewrite Hc, length_take; lia | done].
    rewrite Hn, Hc, take_app_take, reverse_cons, <- app_assoc. done.
Qed.

(** C2. With [maxHistoryItems] a positive number N, after N+1 calls of [add]
    in a row, each of which returns normally and leaves no resident raw body
    on the item it added, the object added first is not in the history. *)
Theorem first_item_leaves_history (handlers : list ResponseHandler) (N : nat)
    (first : ResponseItem) (rest : list ResponseItem) (w w' : Store) :
  (1 <= N)%nat ->
  maxHistoryItems (config w) = Some (Z.of_nat N) ->
  length rest = N ->
  adds handlers (first :: rest) w w' ->
  next w ∉ responseCache w'.
Proof.
  intros HN Hmax Hrest (w1 & Hadd & Hgone & Hadds).
  assert (capacity (config w) = Z.of_nat N) as Hcap.
  { unfold capacity, js_or_num. rewrite Hmax.
    destruct (Z.of_nat N =? 0) eqn:Hz; [lia | done]. }
  destruct (add_history _ _ _ _ Hadd) as (_ & Hn & Hg & shown & Hc & _).
  rewrite Hcap, Nat2Z.id in Hc.
  rewrite (adds_history handlers N rest w1 w');
    [| by rewrite Hg | rewrite Hc, length_take; lia | done].
  rewrite take_app_length' by (rewrite length_reverse, length_seq; done).
  rewrite elem_of_reverse, elem_of_seq. lia.
Qed.

(** ** The life of one item *)

Lemma load_outcome r w :
  heap (snd (invokeLoadResponseBody r w)) r = heap w r \/
  exists location buffer,
    loadResponseBody (heap w r) = Some (LoadFrom location) /\
    heap (snd (invokeLoadResponseBody r w)) r = markLoaded buffer (heap w r).
Proof.
  unfold invokeLoadResponseBody, atItem, loadResponseBody_call, bind, gets. simpl.
  destruct (loadResponseBody (heap w r)) as [[location]|] eqn:Hload; simpl.
  - unfold bind, onExtI, workspace_fs_readFile, modify. simpl.
    destruct (files (ext w) !! location) as [buffer|]; simpl.
    + right. exists location, buffer. by rewrite fn_lookup_insert.
    + left. by rewrite fn_lookup_insert.
  - left. by rewrite fn_lookup_insert.
Qed.

Lemma markShrunk_coherent location it : coherent (markShrunk location it).
Proof. by unfold coherent. Qed.

Lemma markLoaded_coherent buffer it : coherent (markLoaded buffer it).
Proof. by unfold coherent. Qed.

(** What one [shrink] does to the item: nothing, or it marks the item shrunk
    with a location, which is the item's [responseUri] when it had one. *)
Lemma shrink_item r w :
  heap (snd (shrink r w)) r = heap w r \/
  exists location,
    is_Some (rawBody (response (heap w r))) /\
    heap (snd (shrink r w)) r = markShrunk location (heap w r) /\
    (forall u, responseUri (heap w r) = Some u -> location = u).
Proof.
  unfold shrink, bind, gets, modify, ret, onExt, storageProvider_writeFile. simpl.
  destruct (rawBody (response (heap w r))) as [raw|] eqn:Hraw; [| by left].
  destruct (responseUri (heap w r)) as [location|] eqn:Huri; simpl.
  - right. exists location. rewrite fn_lookup_insert.
    split; [by eexists |]. split; [done |]. by intros u [= ->].
  - destruct (sp_writeFile _ _ _) as [[location|] f'] eqn:Hwrite; simpl.
    + right. exists location. rewrite fn_lookup_insert.
      split; [by eexists |]. split; [done |]. by intros u.
    + left.
      match goal with
      | |- context [remove r ?w1] =>
          pose proof (remove_heap r w1) as Hheap;
          destruct (remove r w1) as [[b|e] w2]
      end; simpl in *; by rewrite Hheap.
Qed.

(** What one [loadResponseBody] does to the item: nothing, or, when the
    operation is installed, it marks the item loaded with the bytes of the
    file the operation reads. *)
Lemma load_item r w :
  heap (snd (invokeLoadResponseBody r w)) r = heap w r \/
  exists location buffer,
    loadResponseBody (heap w r) = Some (LoadFrom location) /\
    files (ext w) !! location = Some buffer /\
    heap (snd (invokeLoadResponseBody r w)) r = markLoaded buffer (heap w r).
Proof.
  unfold invokeLoadResponseBody, atItem, loadResponseBody_call, bind, gets. simpl.
  destruct (loadResponseBody (heap w r)) as [[location]|] eqn:Hload; simpl.
  - unfold bind, onExtI, workspace_fs_readFile, modify. simpl.
    destruct (files (ext w) !! location) as [buffer|] eqn:Hfile; simpl.
    + right. exists location, buffer. by rewrite fn_lookup_insert.
    + left. by rewrite fn_lookup_insert.
  - left. by rewrite fn_lookup_insert.
Qed.

(** A [responseUri], once set, is the item's [responseUri] in every later
    state of its life. *)
Lemma lifecycle_keeps_responseUri r w w' location :
  lifecycle r w w' ->
  responseUri (heap w r) = Some location ->
  responseUri (heap w' r) = Some location.
Proof.
  intros Hlife Huri.
  induction Hlife as [| w1 Hlife IH | w1 Hlife IH | w1 w2 Hlife IH Hsame].
  - done.
  - destruct (shrink_item r w1) as [-> | (u & _ & -> & Hu)]; [done |].
    simpl. by rewrite (Hu location IH).
  - destruct (load_item r w1) as [-> | (u & buffer & _ & _ & ->)]; done.
  - by rewrite Hsame.
Qed.

(** C3. In every state that [shrink] and [loadResponseBody] lead to from a
    newly constructed item, the item never holds a [loadResponseBody]
    operation together with a resident raw body: while the operation is
    installed the item is marked cached, its [responseUri] is the location
    the operation reads and the raw body is absent, and without the operation
    the item is not marked cached. An item constructed with a raw body holds
    exactly one of the two, the resident raw body or the operation. The
    [responseUri] is never cleared: once set it stays the same in every later
    state, and an item that has a [responseUri] and no operation holds its
    raw body resident as well. So a load that can read its file leaves the
    item with both the [responseUri] and the resident raw body, and the next
    [shrink] caches it again at the same [responseUri]. *)
Theorem lifecycle_coherent (r : ref) (w0 w : Store) :
  fresh (heap w0 r) ->
  lifecycle r w0 w ->
  coherent (heap w r) /\
  (is_Some (rawBody (response (heap w0 r))) ->
   (is_Some (rawBody (response (heap w r))) <-> loadResponseBody (heap w r) = None)) /\
  (is_Some (responseUri (heap w r)) ->
   loadResponseBody (heap w r) = None ->
   is_Some (rawBody (response (heap w r)))) /\
  (forall w' location,
     lifecycle r w w' ->
     responseUri (heap w r) = Some location ->
     responseUri (heap w' r) = Some location) /\
  (forall location buffer,
     loadResponseBody (heap w r) = Some (LoadFrom location) ->
     files (ext w) !! location = Some buffer ->
     let loaded := snd (invokeLoadResponseBody r w) in
     let again := snd (shrink r loaded) in
     (responseUri (heap loaded r) = Some location /\
      rawBody (response (heap loaded r)) = Some buffer /\
      loadResponseBody (heap loaded r) = None) /\
     (responseUri (heap again r) = Some location /\
      rawBody (response (heap again r)) = None /\
      loadResponseBody (heap again r) = Some (LoadFrom location))).
Proof.
  intros (Huri & Hload & Hcached) Hlife.
  assert (coherent (heap w r) /\
          (is_Some (rawBody (response (heap w0 r))) ->
           is_Some (rawBody (response (heap w r))) \/
           is_Some (loadResponseBody (heap w r))) /\
          (is_Some (responseUri (heap w r)) ->
           loadResponseBody (heap w r) = None ->
           is_Some (rawBody (response (heap w r))))) as (Hco & Hone & Hboth).
  { induction Hlife as [| w Hlife (IHco & IHone & IHboth)
                        | w Hlife (IHco & IHone & IHboth)
                        | w w' Hlife (IHco & IHone & IHboth) Hsame].
    - split; [| split].
      + unfold coherent. by rewrite Hload.
      + by left.
      + rewrite Huri. by intros [u Hu].
    - destruct (shrink_item r w) as [-> | (u & _ & -> & _)]; [done |].
      split; [apply markShrunk_coherent |]. split; [by right; eexists |].
      simpl. by intros _ Hnone.
    - destruct (load_item r w) as [-> | (u & buffer & _ & _ & ->)]; [done |].
      split; [apply markLoaded_coherent |]. split; [by left; eexists |].
      simpl. by eexists.
    - by rewrite Hsame. }
  split; [done |]. split; [| split; [done | split]].
  - intros Hbody. split.
    + intros [raw Hraw]. unfold coherent in Hco.
      destruct (loadResponseBody (heap w r)) as [[u]|]; [| done].
      destruct Hco as (_ & _ & Hnone). congruence.
    + intros Hnone. destruct (Hone Hbody) as [Hraw | [l Hl]]; [done | congruence].
  - intros w' location Hlater Hset.
    by apply (lifecycle_keeps_responseUri r w w' location).
  - intros location buffer Hop Hfile loaded again.
    assert (responseUri (heap w r) = Some location) as Hset.
    { unfold coherent in Hco. rewrite Hop in Hco. by destruct Hco as (_ & -> & _). }
    assert (heap loaded r = markLoaded buffer (heap w r)) as Hloaded.
    { subst loaded. destruct (load_item r w) as [Hsame | (u & b & Hu & Hb & ->)].
      - exfalso. revert Hsame.
        unfold invokeLoadResponseBody, atItem, loadResponseBody_call, bind, gets.
        simpl. rewrite Hop. simpl.
        unfold bind, onExtI, workspace_fs_readFile, modify. simpl.
        rewrite Hfile. simpl. rewrite fn_lookup_insert. intros Hsame.
        rewrite <- Hsame in Hop. discriminate.
      - rewrite Hop in Hu. injection Hu as <-. rewrite Hfile in Hb.
        by injection Hb as <-. }
    split.
    + rewrite Hloaded. by simpl.
    + subst again. destruct (shrink_item r loaded) as [Hsame | (u & _ & -> & Hu)].
      * exfalso. revert Hsame.
        unfold shrink, bind, gets, modify. simpl. rewrite Hloaded. simpl.
        rewrite Hset. simpl. rewrite fn_lookup_insert, Hloaded.
        intros Hsame. apply (f_equal loadResponseBody) in Hsame. discriminate.
      * rewrite (Hu location) by (rewrite Hloaded; by simpl). by simpl.
Qed.

(** ** The handler chain *)

Lemma show_loop_declined r (declined rest : list ResponseHandler) :
  forall w w1,
    declines r declined w w1 ->
    show_loop (declined ++ rest) r w = show_loop rest r w1.
Proof.
  induction declined as [|h hs IH]; intros w w1; simpl.
  - by intros ->.
  - intros (w' & Hh & Hrest). unfold bind at 1. rewrite Hh. by apply IH.
Qed.












(** ** Pretty printing and its deferred queue *)

Lemma Array_findIndex_found {A} (p : A -> bool) (l : list A) (k : nat) :
  Array_findIndex p l = Z.of_nat k ->
  exists x, l !! k = Some x /\ p x = true.
Proof.
  unfold Array_findIndex. intros Hk.
  destruct (findIndex_from_spec p l 0) as [[Hn _] | (k' & x & Hk' & Hx & Hpx)];
    [lia | lia |].
  assert (k' = k) as -> by lia. by exists x.
Qed.

Lemma prettyPrint_active editor w :
  document <$> activeTextEditor (ext w) = Some (document editor) ->
  exists w',
    prettyPrint editor w = (Return tt, w') /\
    calls (ext w') = calls (ext w) ++ [CmdFormatDocument editor] /\
    activeTextEditor (ext w') = activeTextEditor (ext w) /\
    prettyPrintDocuments w' =
      if formatDocumentResult editor (ext w)
      then prettyPrintDocuments w ++ [uri (document editor)]
      else prettyPrintDocuments w.
Proof.
  intros Hactive.
  unfold prettyPrint, bind, gets, modify, ret, onExt, executeFormatDocument.
  simpl. rewrite bool_decide_eq_true_2 by done. simpl.
  destruct (formatDocumentResult editor (ext w)); by eexists.
Qed.

(** C9. When a handler accepts the item while [responseViewPrettyPrint] is on
    and an editor is active, [show] runs [prettyPrint] on that editor. On the
    active editor [prettyPrint] executes the format command once, and it
    appends the editor's uri to the deferred queue exactly when the command
    reports success. When an editor becomes active whose uri is found in the
    queue at an index of 1 or more, the listener executes the format command
    on it again and takes the entry at that index, which is this uri, out of
    the queue as [prettyPrint] left it. *)
Theorem prettyPrint_deferred_queue :
  (forall (h : ResponseHandler) (later : list ResponseHandler) (r : ref)
          (w w1 : Store) (editor : TextEditor),
     atItem r h w = (Return true, w1) ->
     responseViewPrettyPrint (config w) = true ->
     activeTextEditor (ext w1) = Some editor ->
     show_loop (h :: later) r w = prettyPrint editor w1) /\
  (forall (editor : TextEditor) (w : Store),
     document <$> activeTextEditor (ext w) = Some (document editor) ->
     exists w',
       prettyPrint editor w = (Return tt, w') /\
       calls (ext w') = calls (ext w) ++ [CmdFormatDocument editor] /\
       prettyPrintDocuments w' =
         if formatDocumentResult editor (ext w)
         then prettyPrintDocuments w ++ [uri (document editor)]
         else prettyPrintDocuments w) /\
  (forall (editor : TextEditor) (w : Store) (k : nat),
     activeTextEditor (ext w) = Some editor ->
     Array_indexOf (uri (document editor)) (prettyPrintDocuments w) = Z.of_nat (S k) ->
     prettyPrintDocuments w !! S k = Some (uri (document editor)) /\
     exists w',
       onDidChangeActiveTextEditor (Some editor) w = (Return tt, w') /\
       calls (ext w') = calls (ext w) ++ [CmdFormatDocument editor] /\
       prettyPrintDocuments w' =
         Array_splice1 (S k)
           (if formatDocumentResult editor (ext w)
            then prettyPrintDocuments w ++ [uri (document editor)]
            else prettyPrintDocuments w)).
Proof.
  split; [| split].
  - intros h later r w w1 editor Hh Hpretty Hactive.
    destruct (atItem_frame r h w) as (_ & _ & Hg & _). rewrite Hh in Hg.
    simpl in Hg. simpl. unfold bind at 1. rewrite Hh.
    unfold bind, getConfigSetting, gets. simpl.
    by rewrite Hg, Hpretty, Hactive.
  - intros editor w Hactive.
    destruct (prettyPrint_active editor w Hactive) as (w' & Hrun & Hcalls & _ & Hdocs).
    by exists w'.
  - intros editor w k Hactive Hindex. split.
    + destruct (Array_findIndex_found _ _ _ Hindex) as (x & Hx & Hpx).
      apply bool_decide_eq_true in Hpx. by subst x.
    + destruct (prettyPrint_active editor w) as (w1 & Hrun & Hcalls & _ & Hdocs).
      { by rewrite Hactive. }
      unfold onDidChangeActiveTextEditor, bind at 1, gets at 1. rewrite Hindex.
      unfold js_or_num.
      replace (Z.of_nat (S k) =? 0) with false by (symmetry; apply Z.eqb_neq; lia).
      replace (0 <=? Z.of_nat (S k)) with true by (symmetry; apply Z.leb_le; lia).
      unfold bind, modify. rewrite Hrun, Nat2Z.id. eexists. split; [reflexivity |].
      simpl. by rewrite Hdocs.
Qed.

End StoreFacts.

(** * Further properties of the store *)

Lemma Array_findIndex_first {A} (p : A -> bool) (l : list A) :
  (Array_findIndex p l = -1 /\ forall x, x ∈ l -> p x = false) \/
  (exists (k : nat) x,
     Array_findIndex p l = Z.of_nat k /\ l !! k = Some x /\ p x = true /\
     forall (j : nat) y, (j < k)%nat -> l !! j = Some y -> p y = false).
Proof.
  unfold Array_findIndex.
  assert (forall i,
    (findIndex_from p l i = -1 /\ forall x, x ∈ l -> p x = false) \/
    (exists (k : nat) x,
       findIndex_from p l i = i + Z.of_nat k /\ l !! k = Some x /\ p x = true /\
       forall (j : nat) y, (j < k)%nat -> l !! j = Some y -> p y = false)) as Hgen.
  { induction l as [|a l IH]; intros i; simpl.
    - left. split; [done |]. intros x Hx. by apply elem_of_nil in Hx.
    - destruct (p a) eqn:Hpa.
      + right. exists 0%nat, a. repeat split; [lia | done |]. intros j y Hj. lia.
      + destruct (IH (i + 1)) as [[Hn Hall] | (k & x & Hk & Hx & Hpx & Hfirst)].
        * left. split; [done |]. intros x Hx.
          apply elem_of_cons in Hx as [-> | Hx]; [done | by apply Hall].
        * right. exists (S k), x. repeat split; [lia | done | done |].
          intros [|j] y Hj Hy; simpl in Hy; [by injection Hy as <- |].
          apply (Hfirst j); [lia | done]. }
  destruct (Hgen 0) as [Hnone | (k & x & Hk & Hrest)]; [by left |].
  right. exists k, x. split; [lia | done].
Qed.

Section MoreStoreFacts.

Context {storageProvider : StorageProvider} {platform : Platform}.

(** ** [remove], entry by entry *)

(** What [remove] does, in full: nothing when no entry carries the id, and
    otherwise the first such entry leaves the history. *)
Lemma remove_outcome r w :
  (remove r w = (Return false, w) /\
   forall obj, obj ∈ responseCache w -> id (heap w obj) <> id (heap w r)) \/
  (exists (k : nat) obj w',
     responseCache w !! k = Some obj /\
     id (heap w obj) = id (heap w r) /\
     (forall (j : nat) o, (j < k)%nat -> responseCache w !! j = Some o ->
        id (heap w o) <> id (heap w r)) /\
     remove r w = (Return true, w') /\
     responseCache w' = Array_splice1 k (responseCache w) /\
     heap w' = heap w /\ next w' = next w /\ config w' = config w /\
     prettyPrintDocuments w' = prettyPrintDocuments w /\
     activeTextEditor (ext w') = activeTextEditor (ext w) /\
     files (ext w') =
       match responseUri (heap w r) with
       | Some location => sp_deleteFile location (files (ext w))
       | None => files (ext w)
       end /\
     calls (ext w') =
       calls (ext w) ++
       match responseUri (heap w r) with
       | Some location => [CallDeleteFile location]
       | None => []
       end ++
       [FireHistoryChanged] ++
       (if bool_decide (length (Array_splice1 k (responseCache w)) = 0%nat)
        then [CmdSetContext "httpyacHistoryEnabled" false] else [])).
Proof.
  destruct (Array_findIndex_first
              (fun o => bool_decide (id (heap w o) = id (heap w r)))
              (responseCache w)) as [[Hnone Hall] | (k & obj & Hk & Hobj & Hp & Hfirst)].
  - left. split.
    + unfold remove, bind, gets. simpl. by rewrite Hnone.
    + intros obj Hobj. specialize (Hall obj Hobj). by apply bool_decide_eq_false in Hall.
  - right. exists k, obj.
    apply bool_decide_eq_true in Hp.
    assert (forall (j : nat) o, (j < k)%nat -> responseCache w !! j = Some o ->
              id (heap w o) <> id (heap w r)) as Hbefore.
    { intros j o Hj Ho. specialize (Hfirst j o Hj Ho).
      by apply bool_decide_eq_false in Hfirst. }
    clear Hfirst.
    unfold remove, bind, gets, modify, ret, refreshHistory_fire, onExt,
      executeCommand, storageProvider_deleteFile. simpl.
    rewrite Hk. replace (0 <=? Z.of_nat k) with true by (symmetry; apply Z.leb_le; lia).
    rewrite Nat2Z.id.
    destruct (responseUri (heap w r)) as [location|]; simpl;
      destruct (bool_decide (length (Array_splice1 k (responseCache w)) = 0%nat));
      simpl; eexists; (split; [exact Hobj |]); (split; [exact Hp |]);
      (split; [exact Hbefore |]); (split; [reflexivity |]); simpl;
      rewrite <- ?app_assoc; done.
Qed.

Lemma splice1_drops_unique_id (ids : ref -> string) (k : nat) (obj : ref) (l : list ref) :
  l !! k = Some obj -> NoDup (ids <$> l) -> ids obj ∉ ids <$> Array_splice1 k l.
Proof.
  intros Hk Hnodup. unfold Array_splice1.
  rewrite <- (take_drop_middle l k obj Hk) in Hnodup.
  rewrite fmap_app, fmap_cons in Hnodup.
  apply list.NoDup_app in Hnodup as (_ & Hleft & Hright).
  apply list.NoDup_cons in Hright as [Hright _].
  rewrite fmap_app, elem_of_app. intros [Hin | Hin]; [| done].
  apply (Hleft _ Hin). constructor.
Qed.

(** X1. A [remove] that returns true took out the first history entry that
    carries the id of the item passed in and left all other entries in their
    order; when the ids in the history are pairwise different, no entry with
    that id is left. *)
Theorem remove_takes_first_match (r : ref) (w w' : Store) :
  remove r w = (Return true, w') ->
  exists (k : nat) obj,
    responseCache w !! k = Some obj /\
    id (heap w obj) = id (heap w r) /\
    (forall (j : nat) o, (j < k)%nat -> responseCache w !! j = Some o ->
       id (heap w o) <> id (heap w r)) /\
    responseCache w' = take k (responseCache w) ++ drop (S k) (responseCache w) /\
    (NoDup (historyIds w) -> id (heap w r) ∉ historyIds w').
Proof.
  intros Hrun.
  destruct (remove_outcome r w) as [[Hfalse _] | (k & obj & w1 & Hk & Hid & Hfirst & Htrue & Hc & Hh & _)].
  - rewrite Hfalse in Hrun. discriminate.
  - rewrite Htrue in Hrun. injection Hrun as <-.
    exists k, obj. repeat split; [done | done | done | done |].
    intros Hnodup. unfold historyIds. rewrite Hc, Hh, <- Hid.
    by apply (splice1_drops_unique_id (fun o => id (heap w o))).
Qed.

(** ** [clear] *)

Lemma clear_loop_outcome (items : list ref) :
  forall w, exists w',
    clear_loop items w = (Return tt, w') /\
    heap w' = heap w /\ next w' = next w /\ config w' = config w /\
    responseCache w' = responseCache w /\
    prettyPrintDocuments w' = prettyPrintDocuments w /\
    activeTextEditor (ext w') = activeTextEditor (ext w) /\
    calls (ext w') =
      calls (ext w) ++
      (CallDeleteFile <$> omap (fun obj => responseUri (heap w obj)) items) /\
    files (ext w') =
      fold_left (fun f location => sp_deleteFile location f)
        (omap (fun obj => responseUri (heap w obj)) items) (files (ext w)).
Proof.
  induction items as [|obj rest IH]; intros w; simpl.
  - exists w. by rewrite app_nil_r.
  - unfold bind at 1, gets at 1. unfold bind at 1.
    destruct (responseUri (heap w obj)) as [location|] eqn:Huri; simpl.
    + unfold onExt, storageProvider_deleteFile. simpl.
      match goal with |- context [clear_loop rest ?w1] =>
        destruct (IH w1) as (w' & Hrun & Hh & Hn & Hg & Hc & Hq & Ha & Hcalls & Hfiles)
      end.
      exists w'. simpl in *. rewrite Hcalls, Hfiles, <- app_assoc. done.
    + unfold ret. destruct (IH w) as (w' & Hrun & Hrest). by exists w'.
Qed.

(** X2. [clear] always returns normally. It asks the storage provider to
    delete the [responseUri] of every history entry that has one, in history
    order, and nothing else; then the history is empty, the history-changed
    event has fired once and the context key is set to false. No item object
    changes. *)
Theorem clear_deletes_every_copy (w : Store) :
  exists w',
    clear w = (Return tt, w') /\
    responseCache w' = [] /\
    heap w' = heap w /\
    calls (ext w') =
      calls (ext w) ++ (CallDeleteFile <$> historyUris w) ++
      [FireHistoryChanged; CmdSetContext "httpyacHistoryEnabled" false] /\
    files (ext w') =
      fold_left (fun f location => sp_deleteFile location f)
        (historyUris w) (files (ext w)).
Proof.
  destruct (clear_loop_outcome (responseCache w) w)
    as (w1 & Hrun & Hh & Hn & Hg & Hc & Hq & Ha & Hcalls & Hfiles).
  unfold clear, bind, gets, modify, refreshHistory_fire, onExt, executeCommand.
  simpl. rewrite Hrun. simpl. eexists. split; [reflexivity |]. simpl.
  unfold historyUris. rewrite Hcalls, Hfiles, <- !app_assoc. done.
Qed.

(** ** [shrink], branch by branch *)

Lemma shrink_cases r w :
  let item := heap w r in
  let fileName := String.append (id item) (String.append "." (extension item)) in
  (rawBody (response item) = None /\ shrink r w = (Return tt, w)) \/
  (exists raw location,
     rawBody (response item) = Some raw /\ responseUri item = Some location /\
     shrink r w =
       (Return tt, set_heap (<[r := markShrunk location item]> (heap w)) w)) \/
  (exists raw location f',
     rawBody (response item) = Some raw /\ responseUri item = None /\
     sp_writeFile raw fileName (files (ext w)) = (Some location, f') /\
     shrink r w =
       (Return tt,
        set_heap (<[r := markShrunk location item]> (heap w))
          (set_ext (log (CallWriteFile raw fileName) (set_files f' (ext w))) w))) \/
  (exists raw f',
     rawBody (response item) = Some raw /\ responseUri item = None /\
     sp_writeFile raw fileName (files (ext w)) = (None, f') /\
     shrink r w =
       (Return tt,
        snd (remove r (set_ext (log (CallWriteFile raw fileName) (set_files f' (ext w))) w)))).
Proof.
  intros item fileName. subst item fileName.
  unfold shrink, bind, gets, modify, ret, onExt, storageProvider_writeFile. simpl.
  destruct (rawBody (response (heap w r))) as [raw|]; [| by left].
  right. destruct (responseUri (heap w r)) as [location|]; simpl.
  - left. by exists raw, location.
  - right. destruct (sp_writeFile _ _ _) as [[location|] f'] eqn:Hwrite; simpl.
    + left. by exists raw, location, f'.
    + right. exists raw, f'. do 3 (split; [done |]).
      match goal with
      | |- context [remove r ?w1] =>
          destruct (remove_returns r w1) as [b Hb];
          destruct (remove r w1) as [o w2]; simpl in Hb; by subst o
      end.
Qed.

Lemma load_success r w location buffer :
  loadResponseBody (heap w r) = Some (LoadFrom location) ->
  files (ext w) !! location = Some buffer ->
  invokeLoadResponseBody r w =
    (Return tt,
     set_ext (log (CallReadFile location) (ext w))
       (set_heap (<[r := markLoaded buffer (heap w r)]> (heap w)) w)).
Proof.
  intros Hload Hfile.
  unfold invokeLoadResponseBody, atItem, loadResponseBody_call, bind, gets. simpl.
  rewrite Hload. simpl. unfold bind, onExtI, workspace_fs_readFile, modify. simpl.
  by rewrite Hfile.
Qed.

(** X5. Once [shrink] has persisted an item and [loadResponseBody] has
    brought the body back, a further [shrink] returns normally without any
    call to the storage provider: the outside world is exactly as the load
    left it, and the item is cached again at the same [responseUri]. *)
Theorem reshrink_writes_nothing (r : ref) (w : Store) (raw buffer : Buffer) (location : Uri) :
  rawBody (response (heap w r)) = Some raw ->
  responseUri (heap (snd (shrink r w)) r) = Some location ->
  files (ext (snd (shrink r w))) !! location = Some buffer ->
  let w1 := snd (shrink r w) in
  let w2 := snd (invokeLoadResponseBody r w1) in
  let w3 := snd (shrink r w2) in
  fst (shrink r w2) = Return tt /\
  ext w3 = ext w2 /\
  calls (ext w2) = calls (ext w1) ++ [CallReadFile location] /\
  files (ext w2) = files (ext w1) /\
  responseCache w3 = responseCache w1 /\
  responseUri (heap w3 r) = Some location /\
  loadResponseBody (heap w3 r) = Some (LoadFrom location) /\
  isCachedResponse (heap w3 r) = true /\
  rawBody (response (heap w3 r)) = None.
Proof.
  intros Hraw Huri Hfile w1 w2 w3.
  assert (loadResponseBody (heap w1 r) = Some (LoadFrom location)) as Hload.
  { subst w1.
    destruct (shrink_outcome r w raw Hraw) as [(u & _ & Hitem) | [Hnone Hheap]].
    - rewrite Hitem in Huri |- *. simpl in *. congruence.
    - rewrite Hheap, Hnone in Huri. discriminate. }
  pose proof (load_success r w1 location buffer Hload Hfile) as Hrun.
  assert (heap w2 r = markLoaded buffer (heap w1 r)) as Hitem2.
  { subst w2. rewrite Hrun. simpl. by rewrite fn_lookup_insert. }
  assert (responseUri (heap w2 r) = Some location) as Huri2.
  { rewrite Hitem2. simpl. exact Huri. }
  destruct (shrink_cases r w2) as [[Hnone _] | [(raw2 & u & _ & Hu & Hshrink) | Hwrite]].
  - rewrite Hitem2 in Hnone. discriminate.
  - rewrite Huri2 in Hu. injection Hu as <-.
    subst w3. rewrite Hshrink. simpl. rewrite fn_lookup_insert. simpl.
    subst w2. rewrite Hrun. simpl. done.
  - destruct Hwrite as [(raw2 & u & f' & _ & Hu & _) | (raw2 & f' & _ & Hu & _)];
      rewrite Huri2 in Hu; discriminate.
Qed.

(** X6. When [shrink] runs on an item that is in the history, holds a raw
    body and no [responseUri], and the storage provider declines the write,
    [shrink] returns normally, one entry has left the history and no item
    object changed; when the ids in the history are pairwise different, the
    entry that left is this item. *)
Theorem shrink_evicts_history_entry (r : ref) (w : Store) (raw : Buffer) :
  rawBody (response (heap w r)) = Some raw ->
  responseUri (heap w r) = None ->
  fst (sp_writeFile raw
         (String.append (id (heap w r)) (String.append "." (extension (heap w r))))
         (files (ext w))) = None ->
  r ∈ responseCache w ->
  exists w',
    shrink r w = (Return tt, w') /\
    S (length (responseCache w')) = length (responseCache w) /\
    heap w' = heap w /\
    (NoDup (historyIds w) -> r ∉ responseCache w').
Proof.
  intros Hraw Huri Hdeclined Hin.
  destruct (shrink_cases r w) as [[Hnone _] | [(raw2 & u & _ & Hu & _) | [Hok | Hevict]]].
  - rewrite Hraw in Hnone. discriminate.
  - rewrite Huri in Hu. discriminate.
  - destruct Hok as (raw2 & u & f' & Hraw2 & _ & Hwrite & _).
    rewrite Hraw in Hraw2. injection Hraw2 as <-.
    rewrite Hwrite in Hdeclined. discriminate.
  - destruct Hevict as (raw2 & f' & _ & _ & _ & Hshrink).
    rewrite Hshrink. eexists. split; [reflexivity |].
    match goal with
    | |- context [remove r ?w1] =>
        destruct (remove_outcome r w1)
          as [[_ Habsent] | (k & obj & w2 & Hk & Hid & _ & Hrun & Hc & Hh & _)]
    end.
    + exfalso. by apply (Habsent r Hin).
    + rewrite Hrun. simpl in *. rewrite Hc, Hh.
      split; [apply Array_splice1_length; by apply lookup_lt_Some in Hk |].
      split; [done |].
      intros Hnodup Hstill.
      apply (splice1_drops_unique_id (fun o => id (heap w o)) k obj _ Hk Hnodup).
      rewrite Hid. by apply (list_elem_of_fmap_2 (fun o => id (heap w o))).
Qed.

(** ** The handler loop without an accepting handler *)

(** X12. When every handler reports "not handled", [show] is the handler
    calls followed by [shrink]: no format command is executed, and the item
    is shrunk all the same. This covers the empty handler list. *)
Theorem unhandled_item_is_still_shrunk (handlers : list ResponseHandler)
    (r : ref) (w w1 : Store) :
  declines r handlers w w1 ->
  show handlers r w = shrink r w1.
Proof.
  intros Hdeclined. unfold show, bind.
  pose proof (show_loop_declined r handlers [] w w1 Hdeclined) as Hloop.
  rewrite app_nil_r in Hloop. rewrite Hloop. reflexivity.
Qed.

(** X13. When the handlers before [h] decline and [h] throws, [add] ends with
    that exception in the state the handler left: no later handler runs,
    [shrink] does not run and the item is not put into the history. *)
Theorem throwing_handler_aborts_add (declined later : list ResponseHandler)
    (h : ResponseHandler) (constructed : ResponseItem) (w w1 w2 : Store) (e : Error) :
  declines (next w) declined (snd (newResponseItem constructed w)) w1 ->
  atItem (next w) h w1 = (Throw e, w2) ->
  add (declined ++ h :: later) constructed w = (Throw e, w2) /\
  responseCache w2 = responseCache w.
Proof.
  intros Hdeclined Hthrow.
  assert (show_loop (declined ++ h :: later) (next w)
            (snd (newResponseItem constructed w)) = (Throw e, w2)) as Hloop.
  { rewrite (show_loop_declined _ _ _ _ _ Hdeclined). simpl.
    unfold bind at 1. by rewrite Hthrow. }
  split.
  - unfold add, bind at 1. simpl. unfold show, bind at 1 2. simpl in Hloop.
    by rewrite Hloop.
  - by destruct (show_loop_frame _ _ _ _ _ Hloop) as (_ & -> & _).
Qed.

(** ** A negative [maxHistoryItems] *)

(** X4. With a negative [maxHistoryItems], an [add] whose [show] step returns
    normally throws a [RangeError] from the assignment to [length]: the item
    has already been put in front of the history, nothing is trimmed, and
    neither the history-changed event nor the context key follows. *)
Theorem negative_maxHistoryItems_throws (handlers : list ResponseHandler)
    (constructed : ResponseItem) (w w1 : Store) (n : Z) :
  maxHistoryItems (config w) = Some n ->
  n < 0 ->
  show handlers (next w) (snd (newResponseItem constructed w)) = (Return tt, w1) ->
  add handlers constructed w =
    (Throw RangeError, set_responseCache (next w :: responseCache w1) w1).
Proof.
  intros Hmax Hneg Hshow.
  destruct (show_frame _ _ _ _ _ Hshow) as (_ & Hg & _). simpl in Hg.
  rewrite (add_total _ _ _ _ Hshow).
  unfold addToCache, bind, getConfigSetting, gets, modify, ret, throw. simpl.
  rewrite Hg, Hmax. unfold js_or_num.
  replace (n =? 0) with false by (symmetry; apply Z.eqb_neq; lia).
  replace (Z.min _ n <? 0) with true by (symmetry; apply Z.ltb_lt; lia).
  reflexivity.
Qed.

(** ** The context key *)

Lemma contextValue_snoc key cs c :
  contextValue key (cs ++ [c]) =
    match c with
    | CmdSetContext k v => if bool_decide (k = key) then v else contextValue key cs
    | _ => contextValue key cs
    end.
Proof. unfold contextValue. rewrite fold_left_app. simpl. by destruct c. Qed.

Lemma addToCache_calls r w w' :
  addToCache r w = (Return tt, w') ->
  calls (ext w') =
    calls (ext w) ++
    [FireHistoryChanged;
     CmdSetContext "httpyacHistoryEnabled" (bool_decide (0 < length (responseCache w'))%nat)].
Proof.
  unfold addToCache, bind, getConfigSetting, gets, modify, ret, throw,
    refreshHistory_fire, onExt, executeCommand. simpl.
  destruct (Z.min _ _ <? 0); simpl; [discriminate |].
  intros [= <-]. simpl. by rewrite <- app_assoc.
Qed.

Lemma remove_flag r w : flagConsistent w -> flagConsistent (snd (remove r w)).
Proof.
  intros Hflag.
  destruct (remove_outcome r w)
    as [[-> _] | (k & obj & w' & Hk & _ & _ & -> & Hc & _ & _ & _ & _ & _ & _ & Hcalls)];
    [done |].
  unfold flagConsistent, historyEnabled in *. simpl. rewrite Hcalls, Hc.
  apply lookup_lt_Some in Hk.
  pose proof (Array_splice1_length k (responseCache w) Hk) as Hlen.
  assert (forall cs, contextValue "httpyacHistoryEnabled"
            (cs ++ match responseUri (heap w r) with
                   | Some location => [CallDeleteFile location]
                   | None => []
                   end ++ [FireHistoryChanged]) =
          contextValue "httpyacHistoryEnabled" cs) as Hquiet.
  { intros cs. destruct (responseUri (heap w r)); simpl.
    - by rewrite cons_middle, app_assoc, !contextValue_snoc.
    - by rewrite contextValue_snoc. }
  case_bool_decide as Hempty.
  - rewrite !app_assoc, contextValue_snoc. simpl. rewrite Hempty.
    by rewrite bool_decide_eq_false_2 by lia.
  - rewrite app_nil_r, Hquiet, Hflag.
    rewrite !bool_decide_eq_true_2 by lia. done.
Qed.

Lemma shrink_flag r w : flagConsistent w -> flagConsistent (snd (shrink r w)).
Proof.
  intros Hflag.
  destruct (shrink_cases r w)
    as [[_ ->] | [(raw & u & _ & _ & ->) | [(raw & u & f' & _ & _ & _ & ->) | (raw & f' & _ & _ & _ & ->)]]];
    simpl; try done.
  - unfold flagConsistent, historyEnabled in *. simpl.
    by rewrite contextValue_snoc.
  - apply remove_flag. unfold flagConsistent, historyEnabled in *. simpl.
    by rewrite contextValue_snoc.
Qed.

(** X3. The context key [httpyacHistoryEnabled] says whether the history has
    an entry: this holds after every [add] that returns normally and after
    every [clear], and [remove] and [shrink] keep it when it held before. *)
Theorem context_flag_follows_history :
  (forall (handlers : list ResponseHandler) (constructed : ResponseItem) (w w' : Store),
     add handlers constructed w = (Return tt, w') -> flagConsistent w') /\
  (forall (w : Store), flagConsistent (snd (clear w))) /\
  (forall (r : ref) (w : Store), flagConsistent w -> flagConsistent (snd (remove r w))) /\
  (forall (r : ref) (w : Store), flagConsistent w -> flagConsistent (snd (shrink r w))).
Proof.
  split; [| split; [| split]].
  - intros handlers constructed w w' Hadd.
    destruct (add_returns _ _ _ _ Hadd) as (w1 & _ & Hcache).
    unfold flagConsistent, historyEnabled.
    rewrite (addToCache_calls _ _ _ Hcache).
    rewrite cons_middle, app_assoc, contextValue_snoc. done.
  - intros w.
    destruct (clear_loop_outcome (responseCache w) w) as (w1 & Hrun & _).
    unfold clear, bind, gets, modify, refreshHistory_fire, onExt, executeCommand.
    simpl. rewrite Hrun. simpl. unfold flagConsistent, historyEnabled. simpl.
    by rewrite contextValue_snoc.
  - apply remove_flag.
  - apply shrink_flag.
Qed.

(** ** The history as a list of objects *)

Lemma splice1_sublist {A} (k : nat) (l : list A) : Array_splice1 k l `sublist_of` l.
Proof. unfold Array_splice1. rewrite <- delete_take_drop. apply sublist_delete. Qed.

Lemma remove_sub r w :
  responseCache (snd (remove r w)) `sublist_of` responseCache w /\
  next (snd (remove r w)) = next w.
Proof.
  destruct (remove_outcome r w)
    as [[-> _] | (k & obj & w' & _ & _ & _ & -> & Hc & _ & Hn & _)]; simpl.
  - done.
  - rewrite Hc. split; [apply splice1_sublist | done].
Qed.

Lemma shrink_sub r w :
  responseCache (snd (shrink r w)) `sublist_of` responseCache w /\
  next (snd (shrink r w)) = next w.
Proof.
  destruct (shrink_cases r w)
    as [[_ ->] | [(raw & u & _ & _ & ->) | [(raw & u & f' & _ & _ & _ & ->) | (raw & f' & _ & _ & _ & ->)]]];
    simpl; try done.
  match goal with |- context [remove r ?w1] => apply (remove_sub r w1) end.
Qed.

Lemma show_sub handlers r w o w' :
  show handlers r w = (o, w') ->
  responseCache w' `sublist_of` responseCache w /\ next w' = next w.
Proof.
  unfold show, bind.
  destruct (show_loop handlers r w) as [[[]|e] w1] eqn:Hloop;
    destruct (show_loop_frame _ _ _ _ _ Hloop) as (Hn & Hc & _).
  - intros Hshrink. destruct (shrink_sub r w1) as [Hsub Hn'].
    rewrite Hshrink in *. simpl in *. rewrite <- Hc, <- Hn. done.
  - intros [= _ <-]. by rewrite Hc.
Qed.

Lemma addToCache_sub r w :
  responseCache (snd (addToCache r w)) `sublist_of` r :: responseCache w /\
  next (snd (addToCache r w)) = next w.
Proof.
  unfold addToCache, bind, getConfigSetting, gets, modify, ret, throw,
    refreshHistory_fire, onExt, executeCommand. simpl.
  destruct (Z.min _ _ <? 0); simpl; [done |].
  split; [apply sublist_take | done].
Qed.

Lemma add_sub handlers constructed w o w' :
  add handlers constructed w = (o, w') ->
  responseCache w' `sublist_of` next w :: responseCache w /\
  next w' = S (next w).
Proof.
  unfold add, bind at 1 2. simpl.
  destruct (show handlers (next w) _) as [[[]|e] w1] eqn:Hshow;
    destruct (show_sub _ _ _ _ _ Hshow) as [Hsub Hn]; simpl in *.
  - intros Hcache. destruct (addToCache_sub (next w) w1) as [Hsub' Hn'].
    rewrite Hcache in *. simpl in *. split; [| congruence].
    etrans; [exact Hsub' |]. by apply sublist_skip.
  - intros [= _ <-]. split; [by apply sublist_cons | done].
Qed.

Lemma sublist_well_formed (l : list ref) (w' : Store) :
  NoDup l -> (forall r, r ∈ l -> (r < next w')%nat) ->
  responseCache w' `sublist_of` l -> historyWellFormed w'.
Proof.
  intros Hnodup Hbound Hsub. split.
  - by apply (sublist_NoDup _ l).
  - intros r Hr. apply Hbound. by apply (elem_of_sublist (responseCache w')).
Qed.

(** X14. The history never holds the same object twice, and every entry is
    an object that was allocated: [add] (however it ends), [remove],
    [shrink] and [clear] keep this. *)
Theorem history_stays_well_formed :
  (forall (handlers : list ResponseHandler) (constructed : ResponseItem) (w : Store),
     historyWellFormed w -> historyWellFormed (snd (add handlers constructed w))) /\
  (forall (r : ref) (w : Store),
     historyWellFormed w -> historyWellFormed (snd (remove r w))) /\
  (forall (r : ref) (w : Store),
     historyWellFormed w -> historyWellFormed (snd (shrink r w))) /\
  (forall (w : Store), historyWellFormed (snd (clear w))).
Proof.
  split; [| split; [| split]].
  - intros handlers constructed w [Hnodup Hbound].
    destruct (add handlers constructed w) as [o w'] eqn:Hadd.
    destruct (add_sub _ _ _ _ _ Hadd) as [Hsub Hn]. simpl.
    apply (sublist_well_formed (next w :: responseCache w)); [| | done].
    + apply list.NoDup_cons. split; [| done].
      intros Hin. specialize (Hbound _ Hin). lia.
    + intros r Hr. rewrite Hn.
      apply elem_of_cons in Hr as [-> | Hr]; [lia |].
      specialize (Hbound _ Hr). lia.
  - intros r w [Hnodup Hbound]. destruct (remove_sub r w) as [Hsub Hn].
    apply (sublist_well_formed (responseCache w)); [done | | done].
    intros r' Hr'. rewrite Hn. by apply Hbound.
  - intros r w [Hnodup Hbound]. destruct (shrink_sub r w) as [Hsub Hn].
    apply (sublist_well_formed (responseCache w)); [done | | done].
    intros r' Hr'. rewrite Hn. by apply Hbound.
  - intros w.
    destruct (clear_loop_outcome (responseCache w) w) as (w1 & Hrun & _).
    unfold clear, bind, gets, modify, refreshHistory_fire, onExt, executeCommand.
    simpl. rewrite Hrun. simpl. split; simpl.
    + constructor.
    + intros r Hr. by apply elem_of_nil in Hr.
Qed.

(** X17. With [maxHistoryItems] a positive number N, a run of [add] calls
    that all return normally and persist their bodies leaves the history as
    the objects just added, newest first, in front of the history there was,
    cut to N entries. *)
Theorem history_is_newest_first (handlers : list ResponseHandler) (N : nat)
    (items : list ResponseItem) (w w' : Store) :
  (1 <= N)%nat ->
  maxHistoryItems (config w) = Some (Z.of_nat N) ->
  (length (responseCache w) <= N)%nat ->
  adds handlers items w w' ->
  responseCache w' =
    take N (reverse (seq (next w) (length items)) ++ responseCache w).
Proof.
  intros HN Hmax Hlen Hadds.
  apply (adds_history handlers N items w w'); [| done | done].
  unfold capacity, js_or_num. rewrite Hmax.
  destruct (Z.of_nat N =? 0) eqn:Hz; [lia | done].
Qed.

(** ** The lookups *)

Lemma add_puts_in_front handlers constructed w w' :
  add handlers constructed w = (Return tt, w') ->
  exists rest, responseCache w' = next w :: rest.
Proof.
  intros Hadd.
  destruct (add_history _ _ _ _ Hadd) as (Hpos & _ & _ & shown & Hc & _).
  rewrite Hc. destruct (Z.to_nat (capacity (config w))) as [|n] eqn:Hn; [lia |].
  by eexists.
Qed.

(** X15. After an [add] that returns normally and leaves the new item with
    the [documentUri] of a document, [findResponseByDocument] for that
    document gives the new item, also when older history entries show the
    same document. The lookup changes nothing. *)
Theorem added_item_found_by_document (handlers : list ResponseHandler)
    (constructed : ResponseItem) (w w' : Store) (doc : TextDocument) :
  add handlers constructed w = (Return tt, w') ->
  documentUri (heap w' (next w)) = Some (uri doc) ->
  findResponseByDocument doc w' = (Return (Some (next w)), w').
Proof.
  intros Hadd Hdoc. destruct (add_puts_in_front _ _ _ _ Hadd) as [rest Hc].
  unfold findResponseByDocument, gets. rewrite Hc. simpl.
  by rewrite bool_decide_eq_true_2.
Qed.

(** X16. After an [add] that returns normally and leaves the new item with
    the name and the start line of a region's symbol,
    [findResponseByHttpRegion] for that region gives the new item, also when
    older history entries come from the same region. *)
Theorem added_item_found_by_region (handlers : list ResponseHandler)
    (constructed : ResponseItem) (w w' : Store) (httpRegion : HttpRegion) :
  add handlers constructed w = (Return tt, w') ->
  name (heap w' (next w)) = symbol_name (symbol httpRegion) ->
  line (heap w' (next w)) = symbol_startLine (symbol httpRegion) ->
  findResponseByHttpRegion httpRegion w' = (Return (Some (next w)), w').
Proof.
  intros Hadd Hname Hline. destruct (add_puts_in_front _ _ _ _ Hadd) as [rest Hc].
  unfold findResponseByHttpRegion, gets. rewrite Hc. simpl.
  by rewrite !bool_decide_eq_true_2.
Qed.

(** ** The editor listener and the load operation at their edges *)

(** X11. The listener leaves the store untouched, and executes no command,
    when there is no editor, when the editor's uri is not in the deferred
    queue, and when the uri is the first entry of the queue. *)
Theorem listener_ignores (editor : option TextEditor) (w : Store) :
  match editor with
  | None => True
  | Some ed =>
      uri (document ed) ∉ prettyPrintDocuments w \/
      prettyPrintDocuments w !! 0%nat = Some (uri (document ed))
  end ->
  onDidChangeActiveTextEditor editor w = (Return tt, w).
Proof.
  destruct editor as [ed|]; [| done].
  intros Hcase. unfold onDidChangeActiveTextEditor, bind, gets. simpl.
  assert (Array_indexOf (uri (document ed)) (prettyPrintDocuments w) = -1 \/
          Array_indexOf (uri (document ed)) (prettyPrintDocuments w) = 0) as Hindex.
  { destruct Hcase as [Habsent | Hfirst].
    - left. apply Array_findIndex_absent. intros v Hv.
      apply bool_decide_eq_false. by intros ->.
    - right. destruct (prettyPrintDocuments w) as [|v docs]; [done |].
      injection Hfirst as ->. unfold Array_indexOf, Array_findIndex. simpl.
      by rewrite bool_decide_eq_true_2. }
  by destruct Hindex as [-> | ->].
Qed.

(** X18. A [loadResponseBody] whose file cannot be read throws
    [FileNotFound], and every item object is as before, so the item is still
    marked cached and still has its [loadResponseBody]; the history and
    durable storage are as before. On an item without a [loadResponseBody]
    the optional call returns normally and changes no item object and nothing
    outside. *)
Theorem failed_load_keeps_item_cached (r : ref) (w : Store) :
  (forall location,
     loadResponseBody (heap w r) = Some (LoadFrom location) ->
     files (ext w) !! location = None ->
     exists w',
       invokeLoadResponseBody r w = (Throw (FileNotFound location), w') /\
       (forall r', heap w' r' = heap w r') /\
       responseCache w' = responseCache w /\
       files (ext w') = files (ext w) /\
       calls (ext w') = calls (ext w) ++ [CallReadFile location]) /\
  (loadResponseBody (heap w r) = None ->
   exists w',
     invokeLoadResponseBody r w = (Return tt, w') /\
     (forall r', heap w' r' = heap w r') /\
     responseCache w' = responseCache w /\
     ext w' = ext w).
Proof.
  assert (forall r', <[r := heap w r]> (heap w) r' = heap w r') as Hsame.
  { intros r'. destruct (decide (r = r')) as [-> | Hne].
    - apply fn_lookup_insert.
    - by apply fn_lookup_insert_ne. }
  split.
  - intros location Hload Hfile.
    unfold invokeLoadResponseBody, atItem, loadResponseBody_call, bind, gets. simpl.
    rewrite Hload. simpl. unfold bind, onExtI, workspace_fs_readFile. simpl.
    rewrite Hfile. simpl. eexists. split; [reflexivity |]. simpl.
    destruct (ext w); done.
  - intros Hload.
    unfold invokeLoadResponseBody, atItem, loadResponseBody_call, bind, gets, ret. simpl.
    rewrite Hload. simpl. eexists. split; [reflexivity |]. simpl.
    destruct (ext w); done.
Qed.

(** ** The open-with handler *)

(** X7. The open-with handler reports "not handled" and touches neither the
    item nor the outside world when the item has no viewer preference, and
    when it has one but neither a resident raw body nor a [loadResponseBody]
    to get one. *)
Theorem openWith_declines_quietly (it : ResponseItem) (e : Ext) :
  openWith it = None \/
  (loadResponseBody it = None /\ rawBody (response it) = None) ->
  openWithResponseHandler (it, e) = (Return false, (it, e)).
Proof.
  intros Hcase. unfold openWithResponseHandler, bind at 1, gets at 1. simpl.
  destruct (openWith it) as [viewer|] eqn:Hview.
  - destruct Hcase as [Hnone | [Hload Hraw]]; [discriminate |].
    case_bool_decide; [reflexivity |].
    unfold loadResponseBody_call, bind, gets, ret. simpl.
    rewrite Hload. simpl. by rewrite Hraw.
  - reflexivity.
Qed.

(** An empty viewer name is no viewer preference: the handler declines at
    once. *)
Lemma openWith_empty_viewer_declines (it : ResponseItem) (e : Ext) :
  openWith it = Some "" ->
  openWithResponseHandler (it, e) = (Return false, (it, e)).
Proof.
  intros Hview. unfold openWithResponseHandler, bind at 1, gets at 1. simpl.
  by rewrite Hview.
Qed.

Lemma openWith_on_cached (it : ResponseItem) (e : Ext) viewer location buffer :
  openWith it = Some viewer ->
  viewer <> "" ->
  loadResponseBody it = Some (LoadFrom location) ->
  files e !! location = Some buffer ->
  let fileName := String.append (name it) (String.append "." (extension it)) in
  let loaded := markLoaded buffer it in
  let e1 := log (CallWriteFile buffer fileName)
              (set_files (snd (sp_writeFile buffer fileName (files e)))
                 (log (CallReadFile location) e)) in
  openWithResponseHandler (it, e) =
    match fst (sp_writeFile buffer fileName (files e)) with
    | Some u =>
        (Return true,
         ({| id := id loaded; name := name loaded; line := line loaded;
             extension := extension loaded; openWith := openWith loaded;
             noResponseView := noResponseView loaded;
             documentUri := Some u;
             responseUri := responseUri loaded;
             isCachedResponse := isCachedResponse loaded;
             loadResponseBody := loadResponseBody loaded;
             response := response loaded |},
          log (CmdOpenWith u viewer) e1))
    | None => (Return false, (loaded, e1))
    end.
Proof.
  intros Hview Hviewer Hload Hfile fileName loaded e1.
  match goal with |- _ = ?rhs => set (expected := rhs) end.
  unfold openWithResponseHandler, bind at 1, gets at 1. simpl. rewrite Hview.
  rewrite (bool_decide_eq_false_2 (viewer = "")) by done.
  unfold loadResponseBody_call, runLoadResponseBody, bind, gets, modify, ret,
    onExtI, workspace_fs_readFile, storageProvider_writeFile, executeCommand.
  simpl. rewrite Hload. simpl. rewrite Hfile. simpl.
  subst expected fileName loaded e1.
  destruct (sp_writeFile _ _ _) as [[u|] f']; reflexivity.
Qed.

(** X8. On an item that has a viewer preference (a viewer other than the
    empty string) and is cached, with its file readable, when the storage provider accepts the write of the viewer copy:
    the handler reports success; it has read the file, written the bytes
    under the item's name and extension and executed [vscode.openWith] on the
    location it got, in this order and nothing else; the item has the bytes
    as resident raw body, that location as [documentUri], no
    [loadResponseBody] any more, and its [responseUri] as before. *)
Theorem openWith_rehydrates_and_opens (it : ResponseItem) (e : Ext)
    (viewer : string) (location written : Uri) (buffer : Buffer)
    (f' : gmap string Buffer) :
  openWith it = Some viewer ->
  viewer <> "" ->
  loadResponseBody it = Some (LoadFrom location) ->
  files e !! location = Some buffer ->
  sp_writeFile buffer (String.append (name it) (String.append "." (extension it)))
    (files e) = (Some written, f') ->
  exists it' e',
    openWithResponseHandler (it, e) = (Return true, (it', e')) /\
    documentUri it' = Some written /\
    rawBody (response it') = Some buffer /\
    loadResponseBody it' = None /\
    isCachedResponse it' = false /\
    responseUri it' = responseUri it /\
    files e' = f' /\
    calls e' =
      calls e ++
      [CallReadFile location;
       CallWriteFile buffer (String.append (name it) (String.append "." (extension it)));
       CmdOpenWith written viewer].
Proof.
  intros Hview Hviewer Hload Hfile Hwrite.
  rewrite (openWith_on_cached it e viewer location buffer Hview Hviewer Hload Hfile).
  rewrite Hwrite. simpl. eexists _, _. split; [reflexivity |]. simpl.
  rewrite <- !app_assoc. done.
Qed.

(** X9. On an item that has a viewer preference (a viewer other than the
    empty string) and is cached, with its file readable, when the storage provider declines the write of the viewer
    copy: the handler reports "not handled" and executes no command, but the
    item keeps the body that was read in: the raw body is resident, the item
    is no longer marked cached and has no [loadResponseBody], and its
    [documentUri] is as before. *)
Theorem openWith_declined_write_leaves_body (it : ResponseItem) (e : Ext)
    (viewer : string) (location : Uri) (buffer : Buffer) (f' : gmap string Buffer) :
  openWith it = Some viewer ->
  viewer <> "" ->
  loadResponseBody it = Some (LoadFrom location) ->
  files e !! location = Some buffer ->
  sp_writeFile buffer (String.append (name it) (String.append "." (extension it)))
    (files e) = (None, f') ->
  exists e',
    openWithResponseHandler (it, e) = (Return false, (markLoaded buffer it, e')) /\
    rawBody (response (markLoaded buffer it)) = Some buffer /\
    isCachedResponse (markLoaded buffer it) = false /\
    loadResponseBody (markLoaded buffer it) = None /\
    documentUri (markLoaded buffer it) = documentUri it /\
    calls e' =
      calls e ++
      [CallReadFile location;
       CallWriteFile buffer (String.append (name it) (String.append "." (extension it)))].
Proof.
  intros Hview Hviewer Hload Hfile Hwrite.
  rewrite (openWith_on_cached it e viewer location buffer Hview Hviewer Hload Hfile).
  rewrite Hwrite. simpl. eexists. split; [reflexivity |]. simpl.
  rewrite <- !app_assoc. done.
Qed.

Lemma prettyPrint_outside editor w :
  fst (prettyPrint editor w) = Return tt /\
  files (ext (snd (prettyPrint editor w))) = files (ext w) /\
  List.filter isWriteFile (calls (ext (snd (prettyPrint editor w)))) =
    List.filter isWriteFile (calls (ext w)).
Proof.
  unfold prettyPrint, bind, gets, modify, ret, onExt, executeFormatDocument.
  simpl. case_bool_decide; simpl; [| done].
  destruct (formatDocumentResult _ _); simpl;
    rewrite List.filter_app; simpl; by rewrite app_nil_r.
Qed.

(** After an accepting handler the loop returns normally, and what it still
    does touches no item object, no file and makes no write. *)
Lemma show_loop_accepted r (h : ResponseHandler) (later : list ResponseHandler) w w1 :
  atItem r h w = (Return true, w1) ->
  exists w2,
    show_loop (h :: later) r w = (Return tt, w2) /\
    heap w2 = heap w1 /\
    files (ext w2) = files (ext w1) /\
    List.filter isWriteFile (calls (ext w2)) = List.filter isWriteFile (calls (ext w1)).
Proof.
  intros Hh. simpl. unfold bind at 1. rewrite Hh.
  unfold bind, getConfigSetting, gets, ret. simpl.
  destruct (responseViewPrettyPrint (config w1)); [| by exists w1].
  destruct (activeTextEditor (ext w1)) as [editor|]; [| by exists w1].
  destruct (prettyPrint_outside editor w1) as (Hret & Hfiles & Hwrites).
  destruct (prettyPrint_frame editor w1) as (_ & _ & _ & Hheap).
  destruct (prettyPrint editor w1) as [o w2]. simpl in *. subst o. by exists w2.
Qed.

(** X10. Showing a cached item that has a viewer preference (a viewer other
    than the empty string), with the open-with handler first in the list, its file readable and the write of
    the viewer copy accepted: [show] returns normally; afterwards the item is
    cached again at its old [responseUri], with no resident raw body, and has
    the viewer copy's location as [documentUri]; the storage provider was
    asked for exactly one write, that of the viewer copy, so the item's own
    blob was not written again. *)
Theorem show_in_viewer_recaches (r : ref) (w : Store) (later : list ResponseHandler)
    (viewer : string) (location written : Uri) (buffer : Buffer)
    (f' : gmap string Buffer) :
  openWith (heap w r) = Some viewer ->
  viewer <> "" ->
  loadResponseBody (heap w r) = Some (LoadFrom location) ->
  responseUri (heap w r) = Some location ->
  files (ext w) !! location = Some buffer ->
  sp_writeFile buffer
    (String.append (name (heap w r)) (String.append "." (extension (heap w r))))
    (files (ext w)) = (Some written, f') ->
  exists w',
    show (openWithResponseHandler :: later) r w = (Return tt, w') /\
    documentUri (heap w' r) = Some written /\
    responseUri (heap w' r) = Some location /\
    loadResponseBody (heap w' r) = Some (LoadFrom location) /\
    isCachedResponse (heap w' r) = true /\
    rawBody (response (heap w' r)) = None /\
    files (ext w') = f' /\
    List.filter isWriteFile (calls (ext w')) =
      List.filter isWriteFile (calls (ext w)) ++
      [CallWriteFile buffer
         (String.append (name (heap w r)) (String.append "." (extension (heap w r))))].
Proof.
  intros Hview Hviewer Hload Huri Hfile Hwrite.
  pose proof (openWith_on_cached (heap w r) (ext w) viewer location buffer
                Hview Hviewer Hload Hfile) as Hhandler.
  cbv zeta in Hhandler. rewrite Hwrite in Hhandler. simpl in Hhandler.
  destruct (atItem r openWithResponseHandler w) as [o w1] eqn:Hat.
  pose proof Hat as Hrun. unfold atItem in Hrun. rewrite Hhandler in Hrun.
  injection Hrun as <- Hw1.
  assert (heap w1 r =
          {| id := id (heap w r); name := name (heap w r); line := line (heap w r);
             extension := extension (heap w r); openWith := openWith (heap w r);
             noResponseView := noResponseView (heap w r);
             documentUri := Some written;
             responseUri := responseUri (heap w r);
             isCachedResponse := false; loadResponseBody := None;
             response := response (markLoaded buffer (heap w r)) |}) as Hitem1.
  { rewrite <- Hw1. simpl. by rewrite fn_lookup_insert. }
  assert (files (ext w1) = f') as Hfiles1 by (by rewrite <- Hw1).
  assert (List.filter isWriteFile (calls (ext w1)) =
          List.filter isWriteFile (calls (ext w)) ++
          [CallWriteFile buffer
             (String.append (name (heap w r))
                (String.append "." (extension (heap w r))))]) as Hwrites1.
  { rewrite <- Hw1. simpl. rewrite !List.filter_app. simpl.
    by rewrite !app_nil_r. }
  clear Hw1 Hhandler.
  destruct (show_loop_accepted r _ later w w1 Hat)
    as (w2 & Hloop & Hheap & Hfiles & Hwrites).
  unfold show, bind. rewrite Hloop.
  destruct (shrink_cases r w2) as [[Hnone _] | [(raw & u & _ & Hu & Hshrink) | Hother]].
  - rewrite Hheap, Hitem1 in Hnone. discriminate.
  - rewrite Hheap, Hitem1 in Hu. simpl in Hu. rewrite Huri in Hu.
    injection Hu as <-.
    rewrite Hshrink. eexists. split; [reflexivity |]. simpl.
    rewrite fn_lookup_insert, Hheap, Hitem1. simpl.
    repeat split; try done; congruence.
  - exfalso.
    destruct Hother as [(raw & u & f2 & _ & Hu & _) | (raw & f2 & _ & Hu & _)];
      rewrite Hheap, Hitem1 in Hu; simpl in Hu; congruence.
Qed.

Lemma openWith_on_resident (it : ResponseItem) (e : Ext) viewer raw :
  openWith it = Some viewer ->
  viewer <> "" ->
  loadResponseBody it = None ->
  rawBody (response it) = Some raw ->
  let fileName := String.append (name it) (String.append "." (extension it)) in
  let e1 := log (CallWriteFile raw fileName)
              (set_files (snd (sp_writeFile raw fileName (files e))) e) in
  openWithResponseHandler (it, e) =
    match fst (sp_writeFile raw fileName (files e)) with
    | Some u =>
        (Return true,
         ({| id := id it; name := name it; line := line it;
             extension := extension it; openWith := openWith it;
             noResponseView := noResponseView it;
             documentUri := Some u;
             responseUri := responseUri it;
             isCachedResponse := isCachedResponse it;
             loadResponseBody := loadResponseBody it;
             response := response it |},
          log (CmdOpenWith u viewer) e1))
    | None => (Return false, (it, e1))
    end.
Proof.
  intros Hview Hviewer Hload Hraw fileName e1.
  match goal with |- _ = ?rhs => set (expected := rhs) end.
  unfold openWithResponseHandler, bind at 1, gets at 1. simpl. rewrite Hview.
  rewrite (bool_decide_eq_false_2 (viewer = "")) by done.
  unfold loadResponseBody_call, bind, gets, modify, ret,
    onExtI, storageProvider_writeFile, executeCommand.
  simpl. rewrite Hload. simpl. rewrite Hraw. simpl.
  subst expected fileName e1.
  destruct (sp_writeFile _ _ _) as [[u|] f']; reflexivity.
Qed.

(** X19. Showing a newly constructed item that has a viewer preference (a
    viewer other than the empty string) and a resident raw body, with the open-with handler first in the list and both
    writes accepted: the storage provider is asked for two writes of the same
    bytes, first the viewer copy under the item's name and then, by [shrink],
    the item's own blob under its id; afterwards the first location is the
    item's [documentUri], the second its [responseUri], and the item is
    cached with no resident raw body. *)
Theorem show_in_viewer_persists_twice (r : ref) (w : Store) (later : list ResponseHandler)
    (viewer : string) (shown persisted : Uri) (raw : Buffer)
    (f1 f2 : gmap string Buffer) :
  openWith (heap w r) = Some viewer ->
  viewer <> "" ->
  loadResponseBody (heap w r) = None ->
  responseUri (heap w r) = None ->
  rawBody (response (heap w r)) = Some raw ->
  sp_writeFile raw
    (String.append (name (heap w r)) (String.append "." (extension (heap w r))))
    (files (ext w)) = (Some shown, f1) ->
  sp_writeFile raw
    (String.append (id (heap w r)) (String.append "." (extension (heap w r))))
    f1 = (Some persisted, f2) ->
  exists w',
    show (openWithResponseHandler :: later) r w = (Return tt, w') /\
    documentUri (heap w' r) = Some shown /\
    responseUri (heap w' r) = Some persisted /\
    loadResponseBody (heap w' r) = Some (LoadFrom persisted) /\
    isCachedResponse (heap w' r) = true /\
    rawBody (response (heap w' r)) = None /\
    files (ext w') = f2 /\
    List.filter isWriteFile (calls (ext w')) =
      List.filter isWriteFile (calls (ext w)) ++
      [CallWriteFile raw
         (String.append (name (heap w r)) (String.append "." (extension (heap w r))));
       CallWriteFile raw
         (String.append (id (heap w r)) (String.append "." (extension (heap w r))))].
Proof.
  intros Hview Hviewer Hload Huri Hraw Hwrite1 Hwrite2.
  pose proof (openWith_on_resident (heap w r) (ext w) viewer raw
                Hview Hviewer Hload Hraw) as Hhandler.
  cbv zeta in Hhandler. rewrite Hwrite1 in Hhandler. simpl in Hhandler.
  destruct (atItem r openWithResponseHandler w) as [o w1] eqn:Hat.
  pose proof Hat as Hrun. unfold atItem in Hrun. rewrite Hhandler in Hrun.
  injection Hrun as <- Hw1.
  assert (heap w1 r =
          {| id := id (heap w r); name := name (heap w r); line := line (heap w r);
             extension := extension (heap w r); openWith := openWith (heap w r);
             noResponseView := noResponseView (heap w r);
             documentUri := Some shown;
             responseUri := responseUri (heap w r);
             isCachedResponse := isCachedResponse (heap w r);
             loadResponseBody := loadResponseBody (heap w r);
             response := response (heap w r) |}) as Hitem1.
  { rewrite <- Hw1. simpl. by rewrite fn_lookup_insert. }
  assert (files (ext w1) = f1) as Hfiles1 by (by rewrite <- Hw1).
  assert (List.filter isWriteFile (calls (ext w1)) =
          List.filter isWriteFile (calls (ext w)) ++
          [CallWriteFile raw
             (String.append (name (heap w r))
                (String.append "." (extension (heap w r))))]) as Hwrites1.
  { rewrite <- Hw1. simpl. rewrite !List.filter_app. simpl.
    by rewrite !app_nil_r. }
  clear Hw1 Hhandler.
  destruct (show_loop_accepted r _ later w w1 Hat)
    as (w2 & Hloop & Hheap & Hfiles & Hwrites).
  unfold show, bind. rewrite Hloop.
  destruct (shrink_cases r w2)
    as [[Hnone _] | [(raw2 & u & _ & Hu & _) | [Hok | (raw2 & f' & Hraw2 & _ & Hdeclined & _)]]].
  - rewrite Hheap, Hitem1 in Hnone. simpl in Hnone. congruence.
  - rewrite Hheap, Hitem1 in Hu. simpl in Hu. congruence.
  - destruct Hok as (raw2 & u & f' & Hraw2 & _ & Hwrite & Hshrink).
    rewrite Hheap, Hitem1 in Hraw2, Hwrite. simpl in Hraw2, Hwrite.
    rewrite Hraw in Hraw2. injection Hraw2 as <-.
    rewrite Hfiles, Hfiles1, Hwrite2 in Hwrite. injection Hwrite as <- <-.
    rewrite Hshrink. eexists. split; [reflexivity |]. simpl.
    rewrite fn_lookup_insert, Hheap, Hitem1. simpl.
    do 6 (split; [done |]).
    rewrite List.filter_app, Hwrites, Hwrites1. simpl. rewrite <- app_assoc. done.
  - exfalso. rewrite Hheap, Hitem1 in Hraw2, Hdeclined. simpl in Hraw2, Hdeclined.
    rewrite Hraw in Hraw2. injection Hraw2 as <-.
    rewrite Hfiles, Hfiles1, Hwrite2 in Hdeclined. discriminate.
Qed.

End MoreStoreFacts.

(** * Runs on concrete inputs *)

Section Runs.

(** Unless said otherwise the runs use the storage provider that stores every
    blob and a platform whose format command reports failure. *)
#[local] Existing Instance folderStorage.
#[local] Existing Instance formatFails.

(** C1. A run of [add] in which the storage provider declines the write of the
    shrink step: [add] returns normally, the write was asked for and gave no
    location, and afterwards the item with that id is in the history, at
    index 0, with its raw body resident and no [responseUri]. The [remove]
    that [shrink] calls finds nothing to take out, because [add] puts the
    item into the history only after [show] and [shrink] are done. *)
Theorem add_keeps_item_when_write_declined :
  let w := newStore (configOf None false) None in
  let run := add (storageProvider := decliningStorage)
               [acceptingHandler] itemA w in
  fst run = Return tt /\
  calls (ext (snd run)) =
    [CallWriteFile sampleBody "a.txt"; FireHistoryChanged;
     CmdSetContext "httpyacHistoryEnabled" true] /\
  responseCache (snd run) = [0%nat] /\
  id (heap (snd run) 0%nat) = "a" /\
  rawBody (response (heap (snd run) 0%nat)) = Some sampleBody /\
  responseUri (heap (snd run) 0%nat) = None.
Proof. vm_compute. repeat split. Qed.

(** C2, as stated, fails twice. With [maxHistoryItems] 0 the one item added is
    still in the history. With [maxHistoryItems] 1 and two adds the first item
    has left the history, but the blob it persisted is still in durable
    storage and no deletion was asked for. *)
Lemma first_item_kept_or_copy_kept :
  (let w := newStore (configOf (Some 0) false) None in
   let w' := snd (add
                    [acceptingHandler] itemA w) in
   adds [acceptingHandler] [itemA] w w' /\
   next w ∈ responseCache w') /\
  (let w := newStore (configOf (Some 1) false) None in
   let w1 := snd (add
                    [acceptingHandler] itemA w) in
   let w' := snd (add
                    [acceptingHandler] itemB w1) in
   adds [acceptingHandler] [itemA; itemB] w w' /\
   responseCache w' = [1%nat] /\
   responseUri (heap w' 0%nat) = Some "a.txt" /\
   files (ext w') !! "a.txt" = Some sampleBody /\
   List.filter (fun c => match c with CallDeleteFile _ => true | _ => false end)
     (calls (ext w')) = []).
Proof.
  split.
  - intros w w'. split.
    + exists w'. split; [by vm_compute |]. split; by vm_compute.
    + vm_compute. constructor.
  - intros w w1 w'. split.
    + exists w1. split; [by vm_compute |]. split; [by vm_compute |].
      exists w'. split; [by vm_compute |]. split; by vm_compute.
    + vm_compute. repeat split.
Qed.

Lemma first_item_leaves_history_witness :
  let w := newStore (configOf (Some 1) false) None in
  let w1 := snd (add
                   [acceptingHandler] itemA w) in
  let w' := snd (add
                   [acceptingHandler] itemB w1) in
  next w ∉ responseCache w'.
Proof.
  intros w w1 w'.
  apply (first_item_leaves_history [acceptingHandler] 1 itemA [itemB] w w').
  - lia.
  - reflexivity.
  - reflexivity.
  - exists w1. split; [by vm_compute |]. split; [by vm_compute |].
    exists w'. split; [by vm_compute |]. split; by vm_compute.
Defined.

(** C3, as stated, fails: after [shrink] and then [loadResponseBody] the item
    holds a [responseUri] and a resident raw body at once, with no load in
    progress. *)
Lemma durable_copy_and_resident_body_coexist :
  let w0 := holding itemA (configOf None false) None in
  let w := snd (invokeLoadResponseBody 0%nat
                  (snd (shrink 0%nat w0))) in
  fresh (heap w0 0%nat) /\
  lifecycle 0%nat w0 w /\
  responseUri (heap w 0%nat) = Some "a.txt" /\
  rawBody (response (heap w 0%nat)) = Some sampleBody /\
  loadResponseBody (heap w 0%nat) = None.
Proof.
  intros w0 w. split; [by vm_compute |]. split.
  - apply lifecycle_load, lifecycle_shrink, lifecycle_start.
  - by vm_compute.
Qed.

Lemma lifecycle_coherent_witness :
  let w0 := holding itemA (configOf None false) None in
  let w := snd (shrink 0%nat w0) in
  let loaded := snd (invokeLoadResponseBody 0%nat w) in
  let again := snd (shrink 0%nat loaded) in
  coherent (heap w 0%nat) /\
  (is_Some (rawBody (response (heap w 0%nat))) <-> loadResponseBody (heap w 0%nat) = None) /\
  is_Some (rawBody (response (heap loaded 0%nat))) /\
  responseUri (heap again 0%nat) = Some "a.txt" /\
  (responseUri (heap loaded 0%nat) = Some "a.txt" /\
   rawBody (response (heap loaded 0%nat)) = Some sampleBody /\
   loadResponseBody (heap loaded 0%nat) = None) /\
  (responseUri (heap again 0%nat) = Some "a.txt" /\
   rawBody (response (heap again 0%nat)) = None /\
   loadResponseBody (heap again 0%nat) = Some (LoadFrom "a.txt")).
Proof.
  intros w0 w loaded again.
  assert (fresh (heap w0 0%nat)) as Hfresh by (by vm_compute).
  assert (lifecycle 0%nat w0 w) as Hlife by apply lifecycle_shrink, lifecycle_start.
  destruct (lifecycle_coherent 0%nat w0 w Hfresh Hlife)
    as (Hco & Hone & _ & Hkeep & Hload).
  destruct (lifecycle_coherent 0%nat w0 loaded Hfresh)
    as (_ & _ & Hboth & _); [by apply lifecycle_load |].
  split; [exact Hco |].
  split; [apply Hone; by eexists |].
  split; [apply Hboth; [by eexists | by vm_compute] |].
  split.
  { apply (Hkeep again "a.txt"); [| by vm_compute].
    apply lifecycle_shrink, lifecycle_load, lifecycle_start. }
  apply (Hload "a.txt" sampleBody); by vm_compute.
Defined.

(** C4, as stated, fails: with [maxHistoryItems] 0 the history has one entry
    after an [add], which is more than 0. *)
Lemma history_longer_than_zero_maximum :
  let w := newStore (configOf (Some 0) false) None in
  let run := add
               [acceptingHandler] itemA w in
  maxHistoryItems (config w) = Some 0 /\
  fst run = Return tt /\
  ~ Z.of_nat (length (responseCache (snd run))) <= 0.
Proof. vm_compute. repeat split. intros Hle. by apply Hle. Qed.

Lemma add_bounds_history_witness :
  let w := newStore (configOf (Some 1) false) None in
  let w1 := snd (add [acceptingHandler] itemA w) in
  let w' := snd (add [acceptingHandler] itemB w1) in
  Z.of_nat (length (responseCache w')) <= capacity (config w1) /\
  responseCache w' !! 0%nat = Some (next w1).
Proof.
  intros w w1 w'.
  destruct (add_bounds_history [acceptingHandler] itemB w1 w') as [Hbound Hhead];
    [by vm_compute |].
  split; [exact Hbound |]. apply Hhead. by vm_compute.
Defined.


Lemma shrink_twice_is_noop_witness :
  let w := holding itemA (configOf None false) None in
  let w1 := snd (shrink 0%nat w) in
  shrink 0%nat w1 = (Return tt, w1).
Proof.
  intros w w1.
  apply (shrink_twice_is_noop 0%nat w sampleBody).
  - reflexivity.
  - exists "a.txt". by vm_compute.
Defined.

Lemma load_after_shrink_roundtrip_witness :
  let w := holding itemA (configOf None false) None in
  let w1 := snd (shrink 0%nat w) in
  exists w2,
    invokeLoadResponseBody 0%nat w1 =
      (Return tt, w2) /\
    rawBody (response (heap w2 0%nat)) = Some sampleBody /\
    body (response (heap w2 0%nat)) = Some (Buffer_toString sampleBody) /\
    isCachedResponse (heap w2 0%nat) = false /\
    loadResponseBody (heap w2 0%nat) = None.
Proof.
  intros w w1.
  apply (load_after_shrink_roundtrip 0%nat w sampleBody "a.txt").
  - reflexivity.
  - by vm_compute.
  - by vm_compute.
Defined.

Lemma remove_by_id_witness :
  let w := snd (add [acceptingHandler] itemA (newStore (configOf None false) None)) in
  let stranger := snd (newResponseItem itemB w) in
  remove (next w) stranger = (Return false, stranger) /\
  exists w',
    remove 0%nat w = (Return true, w') /\
    S (length (responseCache w')) = length (responseCache w) /\
    heap w' = heap w /\
    files (ext w') = sp_deleteFile "a.txt" (files (ext w)) /\
    CallDeleteFile "a.txt" ∈ calls (ext w').
Proof.
  intros w stranger. split.
  - apply (remove_by_id (next w) stranger).
    intros obj Hobj. apply list_elem_of_singleton in Hobj. by subst obj.
  - apply (remove_by_id 0%nat w). exists 0%nat. split; [constructor | reflexivity].
Defined.

(** C9, as stated, fails: when the format command does not report success the
    editor is not put into the deferred queue, so nothing is retried later.
    And an editor whose uri is the first entry of the queue becomes active
    without any formatting and without the entry leaving the queue. *)
Lemma failed_formatting_is_not_queued :
  (let w := holding itemA (configOf None true) (Some sampleEditor) in
   let run := show [acceptingHandler] 0%nat w in
   fst run = Return tt /\
   calls (ext (snd run)) =
     [CmdFormatDocument sampleEditor; CallWriteFile sampleBody "a.txt"] /\
   prettyPrintDocuments (snd run) = []) /\
  (let w := set_prettyPrintDocuments ["response.txt"]
              (newStore (configOf None true) (Some sampleEditor)) in
   onDidChangeActiveTextEditor (Some sampleEditor) w = (Return tt, w)).
Proof. split; [by vm_compute | reflexivity]. Qed.

Lemma prettyPrint_deferred_queue_witness :
  let w := holding itemA (configOf None true) (Some sampleEditor) in
  let w1 := snd (atItem 0%nat acceptingHandler w) in
  let queued := set_prettyPrintDocuments ["other.txt"; "response.txt"] w in
  show_loop (platform := formatSucceeds) [acceptingHandler; decliningHandler] 0%nat w =
    prettyPrint (platform := formatSucceeds) sampleEditor w1 /\
  (exists w',
     prettyPrint (platform := formatSucceeds) sampleEditor w = (Return tt, w') /\
     calls (ext w') = calls (ext w) ++ [CmdFormatDocument sampleEditor] /\
     prettyPrintDocuments w' = ["response.txt"]) /\
  prettyPrintDocuments queued !! 1%nat = Some "response.txt" /\
  (exists w',
     onDidChangeActiveTextEditor (platform := formatSucceeds) (Some sampleEditor) queued =
       (Return tt, w') /\
     calls (ext w') = calls (ext queued) ++ [CmdFormatDocument sampleEditor] /\
     prettyPrintDocuments w' = ["other.txt"; "response.txt"]).
Proof.
  intros w w1 queued.
  destruct (prettyPrint_deferred_queue (platform := formatSucceeds))
    as (Hshow & Hactive & Hlistener).
  split; [| split].
  - apply (Hshow acceptingHandler [decliningHandler] 0%nat w w1 sampleEditor);
      by vm_compute.
  - apply (Hactive sampleEditor w). reflexivity.
  - apply (Hlistener sampleEditor queued 0%nat); reflexivity.
Defined.

Lemma falsy_maxHistoryItems_trims_to_50_witness :
  let w := newStore (configOf (Some 0) false) None in
  let w1 := snd (show [acceptingHandler] (next w) (snd (newResponseItem itemA w))) in
  exists w',
    add [acceptingHandler] itemA w = (Return tt, w') /\
    responseCache w' = take 50%nat (next w :: responseCache w1) /\
    next w ∈ responseCache w'.
Proof.
  intros w w1.
  apply (falsy_maxHistoryItems_trims_to_50 [acceptingHandler] itemA w w1).
  - left. reflexivity.
  - by vm_compute.
Defined.

End Runs.

(** * Further runs on concrete inputs *)

Section MoreRuns.

#[local] Existing Instance folderStorage.
#[local] Existing Instance formatFails.

Lemma remove_takes_first_match_witness :
  let w1 := snd (add [acceptingHandler] itemA (newStore (configOf None false) None)) in
  let w := snd (add [acceptingHandler] itemB w1) in
  let w' := snd (remove 0%nat w) in
  exists (k : nat) obj,
    responseCache w !! k = Some obj /\
    id (heap w obj) = id (heap w 0%nat) /\
    (forall (j : nat) o, (j < k)%nat -> responseCache w !! j = Some o ->
       id (heap w o) <> id (heap w 0%nat)) /\
    responseCache w' = take k (responseCache w) ++ drop (S k) (responseCache w) /\
    (NoDup (historyIds w) -> id (heap w 0%nat) ∉ historyIds w').
Proof.
  intros w1 w w'. apply (remove_takes_first_match 0%nat w w'). by vm_compute.
Defined.

Lemma context_flag_follows_history_witness :
  let w := snd (add [acceptingHandler] itemA (newStore (configOf None false) None)) in
  flagConsistent w /\
  flagConsistent (snd (remove 0%nat w)) /\
  flagConsistent (snd (shrink 0%nat w)).
Proof.
  intros w.
  destruct context_flag_follows_history as (Hadd & _ & Hremove & Hshrink).
  assert (flagConsistent w) as Hflag.
  { apply (Hadd [acceptingHandler] itemA (newStore (configOf None false) None) w).
    by vm_compute. }
  split; [exact Hflag |]. split; [by apply Hremove | by apply Hshrink].
Defined.

Lemma negative_maxHistoryItems_throws_witness :
  let w := newStore (configOf (Some (-1)) false) None in
  let w1 := snd (show [acceptingHandler] (next w) (snd (newResponseItem itemA w))) in
  add [acceptingHandler] itemA w =
    (Throw RangeError, set_responseCache (next w :: responseCache w1) w1).
Proof.
  intros w w1.
  apply (negative_maxHistoryItems_throws [acceptingHandler] itemA w w1 (-1)).
  - reflexivity.
  - lia.
  - by vm_compute.
Defined.

Lemma reshrink_writes_nothing_witness :
  let w := holding itemA (configOf None false) None in
  let w1 := snd (shrink 0%nat w) in
  let w2 := snd (invokeLoadResponseBody 0%nat w1) in
  let w3 := snd (shrink 0%nat w2) in
  fst (shrink 0%nat w2) = Return tt /\
  ext w3 = ext w2 /\
  calls (ext w2) = calls (ext w1) ++ [CallReadFile "a.txt"] /\
  files (ext w2) = files (ext w1) /\
  responseCache w3 = responseCache w1 /\
  responseUri (heap w3 0%nat) = Some "a.txt" /\
  loadResponseBody (heap w3 0%nat) = Some (LoadFrom "a.txt") /\
  isCachedResponse (heap w3 0%nat) = true /\
  rawBody (response (heap w3 0%nat)) = None.
Proof.
  apply (reshrink_writes_nothing 0%nat (holding itemA (configOf None false) None)
           sampleBody sampleBody "a.txt"); by vm_compute.
Defined.

Lemma shrink_evicts_history_entry_witness :
  let w := snd (add (storageProvider := decliningStorage) [acceptingHandler] itemA
                  (newStore (configOf None false) None)) in
  exists w',
    shrink (storageProvider := decliningStorage) 0%nat w = (Return tt, w') /\
    S (length (responseCache w')) = length (responseCache w) /\
    heap w' = heap w /\
    (NoDup (historyIds w) -> 0%nat ∉ responseCache w').
Proof.
  intros w.
  apply (shrink_evicts_history_entry (storageProvider := decliningStorage)
           0%nat w sampleBody).
  - by vm_compute.
  - by vm_compute.
  - reflexivity.
  - vm_compute. constructor.
Defined.

Lemma openWith_declines_quietly_witness :
  let e := ext (newStore (configOf None false) None) in
  openWithResponseHandler (itemA, e) = (Return false, (itemA, e)) /\
  openWithResponseHandler (viewerItemWithoutBody, e) =
    (Return false, (viewerItemWithoutBody, e)).
Proof.
  intros e. split.
  - apply (openWith_declines_quietly itemA e). left. reflexivity.
  - apply (openWith_declines_quietly viewerItemWithoutBody e). right. by split.
Defined.

Lemma openWith_rehydrates_and_opens_witness :
  let e := ext holdingCached in
  exists it' e',
    openWithResponseHandler (cachedViewerItem, e) = (Return true, (it', e')) /\
    documentUri it' = Some "req.txt" /\
    rawBody (response it') = Some sampleBody /\
    loadResponseBody it' = None /\
    isCachedResponse it' = false /\
    responseUri it' = responseUri cachedViewerItem /\
    files e' = <["req.txt" := sampleBody]> (files e) /\
    calls e' =
      calls e ++
      [CallReadFile "f.txt"; CallWriteFile sampleBody "req.txt";
       CmdOpenWith "req.txt" "hexEditor"].
Proof.
  intros e.
  apply (openWith_rehydrates_and_opens cachedViewerItem e "hexEditor" "f.txt"
           "req.txt" sampleBody); first [reflexivity | done].
Defined.

Lemma openWith_declined_write_leaves_body_witness :
  let e := ext holdingCached in
  exists e',
    openWithResponseHandler (storageProvider := decliningStorage) (cachedViewerItem, e) =
      (Return false, (markLoaded sampleBody cachedViewerItem, e')) /\
    rawBody (response (markLoaded sampleBody cachedViewerItem)) = Some sampleBody /\
    isCachedResponse (markLoaded sampleBody cachedViewerItem) = false /\
    loadResponseBody (markLoaded sampleBody cachedViewerItem) = None /\
    documentUri (markLoaded sampleBody cachedViewerItem) = documentUri cachedViewerItem /\
    calls e' =
      calls e ++ [CallReadFile "f.txt"; CallWriteFile sampleBody "req.txt"].
Proof.
  intros e.
  apply (openWith_declined_write_leaves_body (storageProvider := decliningStorage)
           cachedViewerItem e "hexEditor" "f.txt" sampleBody (files e)); first [reflexivity | done].
Defined.

Lemma show_in_viewer_recaches_witness :
  exists w',
    show [openWithResponseHandler; acceptingHandler] 0%nat holdingCached = (Return tt, w') /\
    documentUri (heap w' 0%nat) = Some "req.txt" /\
    responseUri (heap w' 0%nat) = Some "f.txt" /\
    loadResponseBody (heap w' 0%nat) = Some (LoadFrom "f.txt") /\
    isCachedResponse (heap w' 0%nat) = true /\
    rawBody (response (heap w' 0%nat)) = None /\
    files (ext w') = <["req.txt" := sampleBody]> (files (ext holdingCached)) /\
    List.filter isWriteFile (calls (ext w')) =
      List.filter isWriteFile (calls (ext holdingCached)) ++
      [CallWriteFile sampleBody "req.txt"].
Proof.
  apply (show_in_viewer_recaches 0%nat holdingCached [acceptingHandler] "hexEditor"
           "f.txt" "req.txt" sampleBody); first [reflexivity | done].
Defined.

Lemma listener_ignores_witness :
  let w := set_prettyPrintDocuments ["response.txt"; "other.txt"]
             (newStore (configOf None true) (Some sampleEditor)) in
  onDidChangeActiveTextEditor (Some sampleEditor) w = (Return tt, w) /\
  onDidChangeActiveTextEditor (Some {| document := {| uri := "unknown.txt" |} |}) w =
    (Return tt, w) /\
  onDidChangeActiveTextEditor None w = (Return tt, w).
Proof.
  intros w. split; [| split].
  - apply (listener_ignores (Some sampleEditor) w). right. reflexivity.
  - apply (listener_ignores (Some {| document := {| uri := "unknown.txt" |} |}) w).
    left. intros Hin. vm_compute in Hin.
    apply elem_of_cons in Hin as [Heq | Hin]; [discriminate |].
    apply elem_of_cons in Hin as [Heq | Hin]; [discriminate |].
    by apply elem_of_nil in Hin.
  - by apply (listener_ignores None w).
Defined.

Lemma unhandled_item_is_still_shrunk_witness :
  let w := holding itemA (configOf None true) (Some sampleEditor) in
  let w1 := snd (atItem 0%nat decliningHandler w) in
  show [decliningHandler] 0%nat w = shrink 0%nat w1.
Proof.
  intros w w1. apply (unhandled_item_is_still_shrunk [decliningHandler] 0%nat w w1).
  exists w1. split; by vm_compute.
Defined.

Lemma throwing_handler_aborts_add_witness :
  let w := newStore (configOf None false) None in
  let w1 := snd (atItem 0%nat decliningHandler (snd (newResponseItem itemA w))) in
  let w2 := snd (atItem 0%nat throwingHandler w1) in
  add ([decliningHandler] ++ throwingHandler :: [acceptingHandler]) itemA w =
    (Throw (HandlerError "boom"), w2) /\
  responseCache w2 = responseCache w.
Proof.
  intros w w1 w2.
  apply (throwing_handler_aborts_add [decliningHandler] [acceptingHandler]
           throwingHandler itemA w w1 w2 (HandlerError "boom")).
  - exists w1. split; by vm_compute.
  - by vm_compute.
Defined.

Lemma history_stays_well_formed_witness :
  let w := snd (add [acceptingHandler] itemA (newStore (configOf None false) None)) in
  historyWellFormed (snd (add [acceptingHandler] itemB w)) /\
  historyWellFormed (snd (remove 0%nat w)) /\
  historyWellFormed (snd (shrink 0%nat w)).
Proof.
  intros w.
  destruct history_stays_well_formed as (Hadd & Hremove & Hshrink & _).
  assert (historyWellFormed w) as Hwf.
  { apply (Hadd [acceptingHandler] itemA (newStore (configOf None false) None)).
    split; [constructor |]. intros r Hr. by apply elem_of_nil in Hr. }
  split; [by apply Hadd |]. split; [by apply Hremove | by apply Hshrink].
Defined.

Lemma added_item_found_by_document_witness :
  let w := newStore (configOf None false) None in
  let w' := snd (add [openWithResponseHandler] flaggedItem w) in
  findResponseByDocument {| uri := "req.txt" |} w' = (Return (Some (next w)), w').
Proof.
  intros w w'.
  apply (added_item_found_by_document [openWithResponseHandler] flaggedItem w w'
           {| uri := "req.txt" |}); by vm_compute.
Defined.

Lemma added_item_found_by_region_witness :
  let w := snd (add [acceptingHandler] itemA (newStore (configOf None false) None)) in
  let w' := snd (add [acceptingHandler] itemB w) in
  findResponseByHttpRegion
    {| symbol := {| symbol_name := "req"; symbol_startLine := 1 |} |} w' =
    (Return (Some (next w)), w').
Proof.
  intros w w'.
  apply (added_item_found_by_region [acceptingHandler] itemB w w'
           {| symbol := {| symbol_name := "req"; symbol_startLine := 1 |} |});
    by vm_compute.
Defined.

Lemma history_is_newest_first_witness :
  let w := newStore (configOf (Some 2) false) None in
  let w1 := snd (add [acceptingHandler] itemA w) in
  let w2 := snd (add [acceptingHandler] itemB w1) in
  let w3 := snd (add [acceptingHandler] itemA w2) in
  responseCache w3 = take 2 (reverse (seq (next w) 3) ++ responseCache w).
Proof.
  intros w w1 w2 w3.
  apply (history_is_newest_first [acceptingHandler] 2 [itemA; itemB; itemA] w w3).
  - lia.
  - reflexivity.
  - simpl. lia.
  - exists w1. split; [by vm_compute |]. split; [by vm_compute |].
    exists w2. split; [by vm_compute |]. split; [by vm_compute |].
    exists w3. split; [by vm_compute |]. split; by vm_compute.
Defined.

Lemma failed_load_keeps_item_cached_witness :
  let w := holding cachedViewerItem (configOf None false) None in
  exists w',
    invokeLoadResponseBody 0%nat w = (Throw (FileNotFound "f.txt"), w') /\
    (forall r', heap w' r' = heap w r') /\
    responseCache w' = responseCache w /\
    files (ext w') = files (ext w) /\
    calls (ext w') = calls (ext w) ++ [CallReadFile "f.txt"].
Proof.
  intros w.
  destruct (failed_load_keeps_item_cached 0%nat w) as [Hfails _].
  apply (Hfails "f.txt"); reflexivity.
Defined.

Lemma show_in_viewer_persists_twice_witness :
  let w := holding flaggedItem (configOf None false) None in
  exists w',
    show [openWithResponseHandler] 0%nat w = (Return tt, w') /\
    documentUri (heap w' 0%nat) = Some "req.txt" /\
    responseUri (heap w' 0%nat) = Some "f.txt" /\
    loadResponseBody (heap w' 0%nat) = Some (LoadFrom "f.txt") /\
    isCachedResponse (heap w' 0%nat) = true /\
    rawBody (response (heap w' 0%nat)) = None /\
    files (ext w') = <["f.txt" := sampleBody]> (<["req.txt" := sampleBody]> (files (ext w))) /\
    List.filter isWriteFile (calls (ext w')) =
      List.filter isWriteFile (calls (ext w)) ++
      [CallWriteFile sampleBody "req.txt"; CallWriteFile sampleBody "f.txt"].
Proof.
  intros w.
  apply (show_in_viewer_persists_twice 0%nat w [] "hexEditor" "req.txt" "f.txt"
           sampleBody (<["req.txt" := sampleBody]> (files (ext w)))
           (<["f.txt" := sampleBody]> (<["req.txt" := sampleBody]> (files (ext w)))));
    first [reflexivity | done].
Defined.

End MoreRuns.

